(** * RangaOne admin dashboard: tip form dialog and stock-symbols page

    A shallow embedding of the client-side logic of
    [components/tip-form-dialog.tsx] and
    [app/dashboard/stock-symbols/page.tsx]: the zod validation schema of
    the tip form, the auto-calculated percentage fields, the debounced
    search, the module-level stock-details cache, the submission
    pipeline, the real-time refresh loop and the table's data source.

    Conventions.
    - A JavaScript string is a [string]; every [ascii] stands for one
      UTF-16 code unit below 256, so [String.length] is [.length].
    - A JavaScript number is an IEEE-754 binary64 value, represented by
      the standard library's [spec_float] with precision 53 and maximal
      exponent 1024; arithmetic is the library's correctly rounded
      [SFadd], [SFsub], [SFmul], [SFdiv].
    - A value that may be [undefined] is an [option].
    - React state is an explicit record; a handler or an effect is a
      function from state to state; the network is an oracle whose answer
      is an argument of the continuation that runs after the [await]. *)

From Stdlib Require Import ZArith List String Ascii Bool Lia.
From Stdlib Require Import Floats.SpecFloat DecimalString.
From stdpp Require Import gmap strings.

Import ListNotations.
Open Scope string_scope.
Open Scope nat_scope.

Set Warnings "-abstract-large-number".

(** ** The JavaScript runtime functions the two files call *)

Module JS.

Open Scope Z_scope.

Definition number := spec_float.

Definition prec : Z := 53.
Definition emax : Z := 1024.

Definition sub (x y : number) : number := SFsub prec emax x y.
Definition mul (x y : number) : number := SFmul prec emax x y.
Definition div (x y : number) : number := SFdiv prec emax x y.
(** [x > y] and [x < y]; both are false as soon as one side is [NaN]. *)
Definition gt (x y : number) : bool := SFltb y x.
Definition lt (x y : number) : bool := SFltb x y.

(** The number denoted by the integer literal [z]. *)
Definition of_Z (z : Z) : number := binary_normalize prec emax z 0 false.

(** Truthiness of a string: only the empty string is falsy. *)
Definition truthy (s : string) : bool := negb (s =? "")%string.

(** Truthiness of a possibly undefined string. *)
Definition truthy_opt (o : option string) : bool :=
  match o with Some s => truthy s | None => false end.

(** [a || b] where [a] is a possibly undefined string and [b] a string. *)
Definition or_else (a : option string) (b : string) : string :=
  match a with
  | Some s => if truthy s then s else b
  | None => b
  end.

(** [a || b] where both sides are strings. *)
Definition or_str (a b : string) : string := if truthy a then a else b.

Definition is_digit (c : ascii) : bool :=
  let n := nat_of_ascii c in (48 <=? n)%nat && (n <=? 57)%nat.

Definition digit_val (c : ascii) : Z := Z.of_nat (nat_of_ascii c) - 48.

(** WhiteSpace and LineTerminator code units below 256: TAB, LF, VT, FF,
    CR, SP and NBSP. The regular expression class [\s] is the same set. *)
Definition is_space (c : ascii) : bool :=
  let n := nat_of_ascii c in
  ((9 <=? n)%nat && (n <=? 13)%nat) || (n =? 32)%nat || (n =? 160)%nat.

Fixpoint trim_start (s : string) : string :=
  match s with
  | String c r => if is_space c then trim_start r else s
  | EmptyString => s
  end.

(** Reads the longest run of decimal digits at the head of [s]: the value
    accumulated on top of [acc], the number of digits read, and the rest. *)
Fixpoint read_digits (s : string) (acc : Z) (cnt : nat) : Z * nat * string :=
  match s with
  | String c r =>
      if is_digit c then read_digits r (acc * 10 + digit_val c) (S cnt)
      else (acc, cnt, s)
  | EmptyString => (acc, cnt, s)
  end.

(** ExponentPart, when one is present at the head of [s]; 0 otherwise. *)
Definition read_exponent (s : string) : Z :=
  match s with
  | String c r =>
      if (c =? "e")%char || (c =? "E")%char then
        let '(neg, r') :=
          match r with
          | String "-" r' => (true, r')
          | String "+" r' => (false, r')
          | _ => (false, r)
          end in
        let '(e, n, _) := read_digits r' 0 0%nat in
        match n with
        | O => 0
        | _ => if neg then - e else e
        end
      else 0
  | EmptyString => 0
  end.

(** The binary64 value nearest to [m * 10^e] for [m >= 0], ties to even.
    For a negative exponent the quotient is computed with more than 62
    significant bits and a sticky bit, which rounds as the exact value. *)
Definition of_decimal (neg : bool) (m e : Z) : number :=
  let r :=
    if m =? 0 then S754_zero false
    else if 0 <=? e then binary_normalize prec emax (m * 10 ^ e) 0 false
    else
      let d := 10 ^ (- e) in
      let s := Z.max 0 (64 + Z.log2 d - Z.log2 m) in
      let n := m * 2 ^ s in
      let sticky := if n mod d =? 0 then 0 else 1 in
      binary_normalize prec emax (2 * (n / d) + sticky) (- s - 1) false in
  if neg then SFopp r else r.

Definition has_prefix (p s : string) : bool := String.prefix p s.

(** StrUnsignedDecimalLiteral: the longest prefix of [s] that is one. *)
Definition parse_unsigned (neg : bool) (s : string) : number :=
  if has_prefix "Infinity" s then S754_infinity neg
  else
    let '(ip, ni, r1) := read_digits s 0 0%nat in
    match r1 with
    | String "." r2 =>
        let '(m, nf, r3) := read_digits r2 ip 0%nat in
        match ni, nf with
        | O, O => S754_nan
        | _, _ => of_decimal neg m (read_exponent r3 - Z.of_nat nf)
        end
    | _ =>
        match ni with
        | O => S754_nan
        | _ => of_decimal neg ip (read_exponent r1)
        end
    end.

(** [parseFloat(s)]. *)
Definition parseFloat (s : string) : number :=
  match trim_start s with
  | String "-" r => parse_unsigned true r
  | String "+" r => parse_unsigned false r
  | t => parse_unsigned false t
  end.

Definition string_of_N (n : N) : string := NilZero.string_of_uint (N.to_uint n).
Definition string_of_Z_abs (z : Z) : string := string_of_N (Z.to_N (Z.abs z)).

Fixpoint zeros (n : nat) : string :=
  match n with
  | O => ""
  | S k => String "0" (zeros k)
  end.

Fixpoint strip_trailing_zeros_rev (s : list ascii) : list ascii :=
  match s with
  | c :: r => if (c =? "0")%char then strip_trailing_zeros_rev r else s
  | [] => []
  end.

Definition strip_trailing_zeros (s : string) : string :=
  string_of_list_ascii
    (List.rev (strip_trailing_zeros_rev (List.rev (list_ascii_of_string s)))).

(** Number::toString for an integer [x >= 10^21] that is the value of the
    binary64 number [f]: the fewest significant digits that read back as
    [f], the nearest such digit string when there are several, then
    exponential notation. [k] counts down from 17 digits to 1; [best] is
    the shortest digit string found so far, with its exponent. *)
Fixpoint shortest_digits (f : number) (x : Z) (n : Z) (k : nat)
    (best : string * Z) : string * Z :=
  match k with
  | O => best
  | S k' =>
      let p := 10 ^ (n - Z.of_nat k) in
      let lo := x / p in
      let hi := lo + 1 in
      let back s := SFeqb (of_Z (s * p)) f in
      let pick s :=
        (strip_trailing_zeros (string_of_Z_abs s),
         Z.of_nat (String.length (string_of_Z_abs s)) + (n - Z.of_nat k) - 1) in
      let dlo := x - lo * p in
      let dhi := hi * p - x in
      let best' :=
        match back lo, back hi with
        | true, true =>
            if dlo <? dhi then pick lo
            else if dhi <? dlo then pick hi
            else if Z.even lo then pick lo else pick hi
        | true, false => pick lo
        | false, true => pick hi
        | false, false => best
        end in
      shortest_digits f x n k' best'
  end.

Definition to_exponential (f : number) (x : Z) : string :=
  let n := Z.of_nat (String.length (string_of_Z_abs x)) in
  let '(ds, e) := shortest_digits f x n 17 (string_of_Z_abs x, n - 1) in
  match ds with
  | String c EmptyString => String c ("e+" ++ string_of_Z_abs e)
  | String c r => String c ("." ++ r ++ "e+" ++ string_of_Z_abs e)
  | EmptyString => ""
  end.

(** The integer [n] for which [n / 100 - m * 2^e] is closest to zero, the
    larger one when there are two ([m >= 0]). *)
Definition scaled_round (m e : Z) : Z :=
  if 0 <=? e then m * 2 ^ e * 100
  else (2 * (m * 100) + 2 ^ (- e)) / (2 * 2 ^ (- e)).

(** [x.toFixed(2)]. *)
Definition toFixed2 (x : number) : string :=
  match x with
  | S754_nan => "NaN"
  | S754_infinity false => "Infinity"
  | S754_infinity true => "-Infinity"
  | S754_zero _ => "0.00"
  | S754_finite s m e =>
      let sign := if s then "-" else "" in
      let v := Z.pos m in
      if (0 <=? e) && (10 ^ 21 <=? v * 2 ^ e) then
        sign ++ to_exponential (S754_finite false m e) (v * 2 ^ e)
      else
        let ds := string_of_Z_abs (scaled_round v e) in
        let ds := zeros (3 - String.length ds) ++ ds in
        let k := (String.length ds - 2)%nat in
        sign ++ substring 0 k ds ++ "." ++ substring k 2 ds
  end.

End JS.

(** ** components/tip-form-dialog.tsx: the validation schema *)

Module TipSchema.

Inductive issue_code :=
  | invalid_type | too_small | too_big | custom | invalid_enum_value | not_integer.

(** One entry of a zod error: the field it is about, its code and text. *)
Record issue := { path : string; code : issue_code; message : string }.

(** A string check of zod: [.min(n, msg)] or [.max(n, msg)]. *)
Inductive str_check :=
  | min (n : nat) (msg : string)
  | max (n : nat) (msg : string).

Definition run_str_check (p : string) (v : string) (c : str_check) : list issue :=
  match c with
  | min n msg =>
      if (String.length v <? n)%nat
      then [{| path := p; code := too_small; message := msg |}] else []
  | max n msg =>
      if (n <? String.length v)%nat
      then [{| path := p; code := too_big; message := msg |}] else []
  end.

(** [z.string().min(..)...refine(ok, { message })]: an undefined value is
    the single issue "Required" and nothing else runs; on a string every
    check runs, and the refinement runs after them whatever they found. *)
Definition z_string (p : string) (checks : list str_check)
    (refine : option ((string -> bool) * string)) (v : option string) : list issue :=
  match v with
  | None => [{| path := p; code := invalid_type; message := "Required" |}]
  | Some s =>
      flat_map (run_str_check p s) checks ++
      match refine with
      | Some (ok, msg) =>
          if ok s then [] else [{| path := p; code := custom; message := msg |}]
      | None => []
      end
  end.

(** [z.string().optional()]. *)
Definition z_string_optional (p : string) (v : option string) : list issue := [].

Definition includes (l : list string) (v : string) : bool :=
  existsb (String.eqb v) l.

Fixpoint join_quoted (l : list string) : string :=
  match l with
  | [] => ""
  | [a] => "'" ++ a ++ "'"
  | a :: r => "'" ++ a ++ "' | " ++ join_quoted r
  end.

(** [z.enum(values, { required_error })]. *)
Definition z_enum (p : string) (values : list string) (required_error : string)
    (v : option string) : list issue :=
  match v with
  | None => [{| path := p; code := invalid_type; message := required_error |}]
  | Some s =>
      if includes values s then []
      else [{| path := p; code := invalid_enum_value;
               message := "Invalid enum value. Expected " ++ join_quoted values
                          ++ ", received '" ++ s ++ "'" |}]
  end.

(** [Number.isInteger(x)]. *)
Definition isInteger (x : JS.number) : bool :=
  match x with
  | S754_zero _ => true
  | S754_finite _ m e =>
      (0 <=? e)%Z || (Z.pos m mod 2 ^ (- e) =? 0)%Z
  | _ => false
  end.

(** [z.number().min(lo, m1).max(hi, m2).int(m3)]. *)
Definition z_number_int (p : string) (lo : Z) (m1 : string) (hi : Z) (m2 : string)
    (m3 : string) (v : option JS.number) : list issue :=
  match v with
  | None => [{| path := p; code := invalid_type; message := "Required" |}]
  | Some S754_nan =>
      [{| path := p; code := invalid_type; message := "Expected number, received nan" |}]
  | Some x =>
      (if JS.lt x (JS.of_Z lo)
       then [{| path := p; code := too_small; message := m1 |}] else []) ++
      (if JS.gt x (JS.of_Z hi)
       then [{| path := p; code := too_big; message := m2 |}] else []) ++
      (if isInteger x then []
       else [{| path := p; code := not_integer; message := m3 |}])
  end.

(** The pattern [/^\d+(\.\d+)?/]: the rest of [s] after the longest match,
    when there is one. Greedy matching is the only way this pattern can
    match in front of a character that is neither a digit nor a dot. *)
Definition match_number (s : string) : option string :=
  let '(_, n, r) := JS.read_digits s 0%Z 0 in
  match n with
  | O => None
  | _ =>
      match r with
      | String "." r2 =>
          let '(_, nf, r3) := JS.read_digits r2 0%Z 0 in
          match nf with
          | O => Some r
          | _ => Some r3
          end
      | _ => Some r
      end
  end.

(** [/^\d+(\.\d+)?\s*-\s*\d+(\.\d+)?$/.test(val)]. *)
Definition rangePattern_test (val : string) : bool :=
  match match_number val with
  | None => false
  | Some r =>
      match JS.trim_start r with
      | String "-" r2 =>
          match match_number (JS.trim_start r2) with
          | Some EmptyString => true
          | _ => false
          end
      | _ => false
      end
  end.

Definition is_alpha (c : ascii) : bool :=
  let n := nat_of_ascii c in
  ((65 <=? n)%nat && (n <=? 90)%nat) || ((97 <=? n)%nat && (n <=? 122)%nat).

Definition lower (c : ascii) : ascii :=
  let n := nat_of_ascii c in
  if (65 <=? n)%nat && (n <=? 90)%nat then ascii_of_nat (n + 32) else c.

Definition is_scheme_char (c : ascii) : bool :=
  is_alpha c || JS.is_digit c || (c =? "+")%char || (c =? "-")%char || (c =? ".")%char.

(** Splits [s] at its first [":"] when everything before it is a scheme
    character: the lower-cased scheme and what follows the colon. *)
Fixpoint split_scheme (s : string) (acc : string) : option (string * string) :=
  match s with
  | String c r =>
      if (c =? ":")%char then Some (acc, r)
      else if is_scheme_char c then split_scheme r (acc ++ String (lower c) "")
      else None
  | EmptyString => None
  end.

Definition is_slash (c : ascii) : bool := (c =? "/")%char || (c =? "\")%char.

Fixpoint skip_slashes (s : string) : string :=
  match s with
  | String c r => if is_slash c then skip_slashes r else s
  | EmptyString => s
  end.

Definition ends_authority (c : ascii) : bool :=
  is_slash c || (c =? "?")%char || (c =? "#")%char.

(** The authority: up to the first slash, ["?"] or ["#"]. *)
Fixpoint authority (s : string) : string :=
  match s with
  | String c r => if ends_authority c then "" else String c (authority r)
  | EmptyString => ""
  end.

(** What follows the last ["@"] of the authority. *)
Fixpoint after_userinfo (s : string) (cur : string) : string :=
  match s with
  | String c r =>
      if (c =? "@")%char then after_userinfo r r else after_userinfo r cur
  | EmptyString => cur
  end.

Definition forbidden_host_char (c : ascii) : bool :=
  let n := nat_of_ascii c in
  (n <=? 32)%nat || (n =? 127)%nat ||
  existsb (Ascii.eqb c) (list_ascii_of_string "#%/<>?@[\]^|").

(** A non-empty host without forbidden code points, then nothing or a
    colon and a port of decimal digits. *)
Fixpoint host_ok (s : string) (seen : nat) : bool :=
  match s with
  | String c r =>
      if (c =? ":")%char then
        let '(port, _, rest) := JS.read_digits r 0%Z 0 in
        (0 <? seen)%nat && (rest =? "")%string && (port <=? 65535)%Z
      else if forbidden_host_char c then false
      else host_ok r (S seen)
  | EmptyString => (0 <? seen)%nat
  end.

Definition special_schemes : list string := ["http"; "https"; "ws"; "wss"; "ftp"].

Fixpoint trim_end_rev (s : list ascii) : list ascii :=
  match s with
  | c :: r => if (nat_of_ascii c <=? 32)%nat then trim_end_rev r else s
  | [] => []
  end.

Fixpoint trim_c0_start (s : string) : string :=
  match s with
  | String c r => if (nat_of_ascii c <=? 32)%nat then trim_c0_start r else s
  | EmptyString => s
  end.

Definition trim_c0 (s : string) : string :=
  trim_c0_start
    (string_of_list_ascii (List.rev (trim_end_rev (List.rev (list_ascii_of_string s))))).

(** Whether [new URL(val)] returns rather than throws. The URL parser of
    the runtime is approximated: a scheme must be present (there is no
    base URL), and for the schemes http, https, ws, wss and ftp a host
    must follow. IPv6 literals, IDNA and percent-decoding of hosts are
    outside the approximation. *)
Definition URL_ok (val : string) : bool :=
  match trim_c0 val with
  | String c r =>
      if is_alpha c then
        match split_scheme (String c r) "" with
        | Some (scheme, rest) =>
            if includes special_schemes scheme
            then host_ok (after_userinfo (authority (skip_slashes rest))
                            (authority (skip_slashes rest))) 0
            else true
        | None => false
        end
      else false
  | EmptyString => false
  end.

(** The form values handed to the resolver; an absent key is [None]. *)
Record TipFormValues := {
  title : option string;
  stockId : option string;
  stockSymbol : option string;
  stockName : option string;
  category : option string;
  content : option string;
  description : option string;
  status : option string;
  action : option string;
  buyRange : option string;
  targetPrice : option string;
  targetPercentage : option string;
  addMoreAt : option string;
  exitPrice : option string;
  exitStatus : option string;
  exitStatusPercentage : option string;
  horizon : option string;
  tipUrl : option string;
  analysistConfidence : option JS.number
}.

(** [tipSchema.safeParse(v)]: the issues found, in the order of the keys
    of the schema; the parse succeeds when there is none. *)
Definition tipSchema (v : TipFormValues) : list issue :=
  z_string "title"
    [min 1 "Title is required";
     min 5 "Title must be at least 5 characters";
     max 200 "Title must be less than 200 characters"] None (title v) ++
  z_string "stockId" [min 1 "Stock symbol is required"] None (stockId v) ++
  z_string "stockSymbol" [min 1 "Stock symbol is required"] None (stockSymbol v) ++
  z_string_optional "stockName" (stockName v) ++
  z_enum "category" ["basic"; "premium"; "social_media"] "Category is required"
    (category v) ++
  z_string "content"
    [min 1 "Content is required";
     min 20 "Content must be at least 20 characters";
     max 5000 "Content must be less than 5000 characters"] None (content v) ++
  z_string "description"
    [min 1 "Description is required";
     min 10 "Description must be at least 10 characters";
     max 1000 "Description must be less than 1000 characters"] None (description v) ++
  z_enum "status" ["Active"; "Closed"] "Status is required" (status v) ++
  z_string "action" [min 1 "Action is required"]
    (Some (includes ["buy"; "sell"; "hold"; "partial sell"; "partial profit"; "add more"],
           "Please select a valid action")) (action v) ++
  z_string "buyRange" [min 1 "Buy range is required"]
    (Some (rangePattern_test, "Buy range must be in format: 100-200 or 100.50-200.75"))
    (buyRange v) ++
  z_string_optional "targetPrice" (targetPrice v) ++
  z_string_optional "targetPercentage" (targetPercentage v) ++
  z_string_optional "addMoreAt" (addMoreAt v) ++
  z_string_optional "exitPrice" (exitPrice v) ++
  z_string_optional "exitStatus" (exitStatus v) ++
  z_string_optional "exitStatusPercentage" (exitStatusPercentage v) ++
  z_string "horizon" [min 1 "Horizon is required"]
    (Some (includes ["Short Term"; "Medium Term"; "Long Term"],
           "Please select a valid time horizon")) (horizon v) ++
  z_string "tipUrl" [min 1 "PDF link is required"]
    (Some (URL_ok, "Please enter a valid URL")) (tipUrl v) ++
  z_number_int "analysistConfidence" 1 "Confidence score is required"
    10 "Confidence score must be between 1-10"
    "Confidence score must be a whole number" (analysistConfidence v).

Definition set_title (v : option string) (s : TipFormValues) : TipFormValues :=
  {| title := v; stockId := stockId s; stockSymbol := stockSymbol s;
     stockName := stockName s; category := category s; content := content s;
     description := description s; status := status s; action := action s;
     buyRange := buyRange s; targetPrice := targetPrice s;
     targetPercentage := targetPercentage s; addMoreAt := addMoreAt s;
     exitPrice := exitPrice s; exitStatus := exitStatus s;
     exitStatusPercentage := exitStatusPercentage s; horizon := horizon s;
     tipUrl := tipUrl s; analysistConfidence := analysistConfidence s |}.

Definition set_stockId (v : option string) (s : TipFormValues) : TipFormValues :=
  {| title := title s; stockId := v; stockSymbol := stockSymbol s;
     stockName := stockName s; category := category s; content := content s;
     description := description s; status := status s; action := action s;
     buyRange := buyRange s; targetPrice := targetPrice s;
     targetPercentage := targetPercentage s; addMoreAt := addMoreAt s;
     exitPrice := exitPrice s; exitStatus := exitStatus s;
     exitStatusPercentage := exitStatusPercentage s; horizon := horizon s;
     tipUrl := tipUrl s; analysistConfidence := analysistConfidence s |}.

Definition set_stockSymbol (v : option string) (s : TipFormValues) : TipFormValues :=
  {| title := title s; stockId := stockId s; stockSymbol := v;
     stockName := stockName s; category := category s; content := content s;
     description := description s; status := status s; action := action s;
     buyRange := buyRange s; targetPrice := targetPrice s;
     targetPercentage := targetPercentage s; addMoreAt := addMoreAt s;
     exitPrice := exitPrice s; exitStatus := exitStatus s;
     exitStatusPercentage := exitStatusPercentage s; horizon := horizon s;
     tipUrl := tipUrl s; analysistConfidence := analysistConfidence s |}.

Definition set_stockName (v : option string) (s : TipFormValues) : TipFormValues :=
  {| title := title s; stockId := stockId s; stockSymbol := stockSymbol s;
     stockName := v; category := category s; content := content s;
     description := description s; status := status s; action := action s;
     buyRange := buyRange s; targetPrice := targetPrice s;
     targetPercentage := targetPercentage s; addMoreAt := addMoreAt s;
     exitPrice := exitPrice s; exitStatus := exitStatus s;
     exitStatusPercentage := exitStatusPercentage s; horizon := horizon s;
     tipUrl := tipUrl s; analysistConfidence := analysistConfidence s |}.

Definition set_category (v : option string) (s : TipFormValues) : TipFormValues :=
  {| title := title s; stockId := stockId s; stockSymbol := stockSymbol s;
     stockName := stockName s; category := v; content := content s;
     description := description s; status := status s; action := action s;
     buyRange := buyRange s; targetPrice := targetPrice s;
     targetPercentage := targetPercentage s; addMoreAt := addMoreAt s;
     exitPrice := exitPrice s; exitStatus := exitStatus s;
     exitStatusPercentage := exitStatusPercentage s; horizon := horizon s;
     tipUrl := tipUrl s; analysistConfidence := analysistConfidence s |}.

Definition set_content (v : option string) (s : TipFormValues) : TipFormValues :=
  {| title := title s; stockId := stockId s; stockSymbol := stockSymbol s;
     stockName := stockName s; category := category s; content := v;
     description := description s; status := status s; action := action s;
     buyRange := buyRange s; targetPrice := targetPrice s;
     targetPercentage := targetPercentage s; addMoreAt := addMoreAt s;
     exitPrice := exitPrice s; exitStatus := exitStatus s;
     exitStatusPercentage := exitStatusPercentage s; horizon := horizon s;
     tipUrl := tipUrl s; analysistConfidence := analysistConfidence s |}.

Definition set_description (v : option string) (s : TipFormValues) : TipFormValues :=
  {| title := title s; stockId := stockId s; stockSymbol := stockSymbol s;
     stockName := stockName s; category := category s; content := content s;
     description := v; status := status s; action := action s; buyRange := buyRange s;
     targetPrice := targetPrice s; targetPercentage := targetPercentage s;
     addMoreAt := addMoreAt s; exitPrice := exitPrice s; exitStatus := exitStatus s;
     exitStatusPercentage := exitStatusPercentage s; horizon := horizon s;
     tipUrl := tipUrl s; analysistConfidence := analysistConfidence s |}.

Definition set_status (v : option string) (s : TipFormValues) : TipFormValues :=
  {| title := title s; stockId := stockId s; stockSymbol := stockSymbol s;
     stockName := stockName s; category := category s; content := content s;
     description := description s; status := v; action := action s;
     buyRange := buyRange s; targetPrice := targetPrice s;
     targetPercentage := targetPercentage s; addMoreAt := addMoreAt s;
     exitPrice := exitPrice s; exitStatus := exitStatus s;
     exitStatusPercentage := exitStatusPercentage s; horizon := horizon s;
     tipUrl := tipUrl s; analysistConfidence := analysistConfidence s |}.

Definition set_action (v : option string) (s : TipFormValues) : TipFormValues :=
  {| title := title s; stockId := stockId s; stockSymbol := stockSymbol s;
     stockName := stockName s; category := category s; content := content s;
     description := description s; status := status s; action := v;
     buyRange := buyRange s; targetPrice := targetPrice s;
     targetPercentage := targetPercentage s; addMoreAt := addMoreAt s;
     exitPrice := exitPrice s; exitStatus := exitStatus s;
     exitStatusPercentage := exitStatusPercentage s; horizon := horizon s;
     tipUrl := tipUrl s; analysistConfidence := analysistConfidence s |}.

Definition set_buyRange (v : option string) (s : TipFormValues) : TipFormValues :=
  {| title := title s; stockId := stockId s; stockSymbol := stockSymbol s;
     stockName := stockName s; category := category s; content := content s;
     description := description s; status := status s; action := action s;
     buyRange := v; targetPrice := targetPrice s;
     targetPercentage := targetPercentage s; addMoreAt := addMoreAt s;
     exitPrice := exitPrice s; exitStatus := exitStatus s;
     exitStatusPercentage := exitStatusPercentage s; horizon := horizon s;
     tipUrl := tipUrl s; analysistConfidence := analysistConfidence s |}.

Definition set_targetPrice (v : option string) (s : TipFormValues) : TipFormValues :=
  {| title := title s; stockId := stockId s; stockSymbol := stockSymbol s;
     stockName := stockName s; category := category s; content := content s;
     description := description s; status := status s; action := action s;
     buyRange := buyRange s; targetPrice := v; targetPercentage := targetPercentage s;
     addMoreAt := addMoreAt s; exitPrice := exitPrice s; exitStatus := exitStatus s;
     exitStatusPercentage := exitStatusPercentage s; horizon := horizon s;
     tipUrl := tipUrl s; analysistConfidence := analysistConfidence s |}.

Definition set_targetPercentage (v : option string) (s : TipFormValues) : TipFormValues :=
  {| title := title s; stockId := stockId s; stockSymbol := stockSymbol s;
     stockName := stockName s; category := category s; content := content s;
     description := description s; status := status s; action := action s;
     buyRange := buyRange s; targetPrice := targetPrice s; targetPercentage := v;
     addMoreAt := addMoreAt s; exitPrice := exitPrice s; exitStatus := exitStatus s;
     exitStatusPercentage := exitStatusPercentage s; horizon := horizon s;
     tipUrl := tipUrl s; analysistConfidence := analysistConfidence s |}.

Definition set_addMoreAt (v : option string) (s : TipFormValues) : TipFormValues :=
  {| title := title s; stockId := stockId s; stockSymbol := stockSymbol s;
     stockName := stockName s; category := category s; content := content s;
     description := description s; status := status s; action := action s;
     buyRange := buyRange s; targetPrice := targetPrice s;
     targetPercentage := targetPercentage s; addMoreAt := v; exitPrice := exitPrice s;
     exitStatus := exitStatus s; exitStatusPercentage := exitStatusPercentage s;
     horizon := horizon s; tipUrl := tipUrl s;
     analysistConfidence := analysistConfidence s |}.

Definition set_exitPrice (v : option string) (s : TipFormValues) : TipFormValues :=
  {| title := title s; stockId := stockId s; stockSymbol := stockSymbol s;
     stockName := stockName s; category := category s; content := content s;
     description := description s; status := status s; action := action s;
     buyRange := buyRange s; targetPrice := targetPrice s;
     targetPercentage := targetPercentage s; addMoreAt := addMoreAt s; exitPrice := v;
     exitStatus := exitStatus s; exitStatusPercentage := exitStatusPercentage s;
     horizon := horizon s; tipUrl := tipUrl s;
     analysistConfidence := analysistConfidence s |}.

Definition set_exitStatus (v : option string) (s : TipFormValues) : TipFormValues :=
  {| title := title s; stockId := stockId s; stockSymbol := stockSymbol s;
     stockName := stockName s; category := category s; content := content s;
     description := description s; status := status s; action := action s;
     buyRange := buyRange s; targetPrice := targetPrice s;
     targetPercentage := targetPercentage s; addMoreAt := addMoreAt s;
     exitPrice := exitPrice s; exitStatus := v;
     exitStatusPercentage := exitStatusPercentage s; horizon := horizon s;
     tipUrl := tipUrl s; analysistConfidence := analysistConfidence s |}.

Definition set_exitStatusPercentage (v : option string) (s : TipFormValues) : TipFormValues :=
  {| title := title s; stockId := stockId s; stockSymbol := stockSymbol s;
     stockName := stockName s; category := category s; content := content s;
     description := description s; status := status s; action := action s;
     buyRange := buyRange s; targetPrice := targetPrice s;
     targetPercentage := targetPercentage s; addMoreAt := addMoreAt s;
     exitPrice := exitPrice s; exitStatus := exitStatus s; exitStatusPercentage := v;
     horizon := horizon s; tipUrl := tipUrl s;
     analysistConfidence := analysistConfidence s |}.

Definition set_horizon (v : option string) (s : TipFormValues) : TipFormValues :=
  {| title := title s; stockId := stockId s; stockSymbol := stockSymbol s;
     stockName := stockName s; category := category s; content := content s;
     description := description s; status := status s; action := action s;
     buyRange := buyRange s; targetPrice := targetPrice s;
     targetPercentage := targetPercentage s; addMoreAt := addMoreAt s;
     exitPrice := exitPrice s; exitStatus := exitStatus s;
     exitStatusPercentage := exitStatusPercentage s; horizon := v; tipUrl := tipUrl s;
     analysistConfidence := analysistConfidence s |}.

Definition set_tipUrl (v : option string) (s : TipFormValues) : TipFormValues :=
  {| title := title s; stockId := stockId s; stockSymbol := stockSymbol s;
     stockName := stockName s; category := category s; content := content s;
     description := description s; status := status s; action := action s;
     buyRange := buyRange s; targetPrice := targetPrice s;
     targetPercentage := targetPercentage s; addMoreAt := addMoreAt s;
     exitPrice := exitPrice s; exitStatus := exitStatus s;
     exitStatusPercentage := exitStatusPercentage s; horizon := horizon s; tipUrl := v;
     analysistConfidence := analysistConfidence s |}.

Definition set_analysistConfidence (v : option JS.number) (s : TipFormValues) : TipFormValues :=
  {| title := title s; stockId := stockId s; stockSymbol := stockSymbol s;
     stockName := stockName s; category := category s; content := content s;
     description := description s; status := status s; action := action s;
     buyRange := buyRange s; targetPrice := targetPrice s;
     targetPercentage := targetPercentage s; addMoreAt := addMoreAt s;
     exitPrice := exitPrice s; exitStatus := exitStatus s;
     exitStatusPercentage := exitStatusPercentage s; horizon := horizon s;
     tipUrl := tipUrl s; analysistConfidence := v |}.

(** A tip for which every field but the target price is filled in. *)
Definition buy_tip_without_target : TipFormValues :=
  {| title := Some "TCS Investment Tip";
     stockId := Some "64a1f0c2e1b2c3d4e5f60718";
     stockSymbol := Some "TCS";
     stockName := Some "Tata Consultancy Services";
     category := Some "basic";
     content := Some "Accumulate on dips near support.";
     description := Some "Large-cap IT pick";
     status := Some "Active";
     action := Some "buy";
     buyRange := Some "100-200";
     targetPrice := Some "";
     targetPercentage := Some "";
     addMoreAt := Some "";
     exitPrice := Some "";
     exitStatus := Some "";
     exitStatusPercentage := Some "";
     horizon := Some "Long Term";
     tipUrl := Some "https://example.com/analysis.pdf";
     analysistConfidence := Some (JS.of_Z 5) |}.

End TipSchema.

(** ** Timers of the event loop and the debounce utility *)

Module Timers.

Section Clock.

Context {A : Type}.

(** A pending [setTimeout]: its id, the instant from which it may fire and
    the arguments its callback was closed over. *)
Record timer := { tid : nat; due : nat; targ : A }.

(** Time in milliseconds, the id the next timer gets, the pending timers. *)
Record clock := { now : nat; next_id : nat; pending : list timer }.

Definition setTimeout (a : A) (wait : nat) (c : clock) : nat * clock :=
  (next_id c,
   {| now := now c; next_id := S (next_id c);
      pending := pending c ++ [{| tid := next_id c; due := now c + wait; targ := a |}] |}).

(** [clearTimeout(t)]: nothing happens for [undefined] or for an id that
    is not pending. *)
Definition clearTimeout (t : option nat) (c : clock) : clock :=
  match t with
  | None => c
  | Some i =>
      {| now := now c; next_id := next_id c;
         pending := List.filter (fun x => negb (tid x =? i)) (pending c) |}
  end.

(** The function [debounce(func, wait)] returns, applied to [a]; the first
    component of the pair is the variable [timeout] of its closure. *)
Definition debounce (wait : nat) (a : A) (st : option nat * clock) : option nat * clock :=
  let c1 := clearTimeout (fst st) (snd st) in
  let '(i, c2) := setTimeout a wait c1 in
  (Some i, c2).

Fixpoint insert_by_due (t : timer) (l : list timer) : list timer :=
  match l with
  | [] => [t]
  | x :: r => if due t <? due x then t :: l else x :: insert_by_due t r
  end.

Definition sort_by_due (l : list timer) : list timer :=
  fold_right insert_by_due [] (rev l).

(** Time advances by [dt]: the timers that are due, earliest first and in
    order of creation among equals, and the clock without them. *)
Definition advance (dt : nat) (c : clock) : list timer * clock :=
  let t := now c + dt in
  (sort_by_due (List.filter (fun x => due x <=? t) (pending c)),
   {| now := t; next_id := next_id c;
      pending := List.filter (fun x => negb (due x <=? t)) (pending c) |}).

End Clock.

Arguments timer : clear implicits.
Arguments clock : clear implicits.

End Timers.

(** ** Records exchanged with the backend *)

Module Stock.

(** [StockSymbol] of [lib/api-stock-symbols], by the fields the two files
    read: a record carries [_id] and possibly also [id]. *)
Record t := {
  _id : string;
  id : option string;
  symbol : string;
  name : string;
  exchange : string;
  currentPrice : string;
  previousPrice : string
}.

End Stock.

(** What a rejected promise carries: an [Error] with its message, or any
    other thrown value. *)
Inductive js_error := Error (msg : string) | thrown_value.

Definition error_message (e : js_error) (fallback : string) : string :=
  match e with Error m => m | thrown_value => fallback end.

Inductive outcome (A : Type) := resolved (a : A) | rejected (e : js_error).
Arguments resolved {A} a.
Arguments rejected {A} e.

Record toast := { toast_title : string; toast_description : string; destructive : bool }.

(** ** app/dashboard/stock-symbols/page.tsx *)

Module Page.

Inductive RefreshInterval := r5 | r10 | r30 | r60 | r300.

(** [REFRESH_INTERVALS[r]]: the label and the period in milliseconds. *)
Definition REFRESH_INTERVALS (r : RefreshInterval) : string * nat :=
  match r with
  | r5 => ("5 seconds", 5000)
  | r10 => ("10 seconds", 10000)
  | r30 => ("30 seconds", 30000)
  | r60 => ("1 minute", 60000)
  | r300 => ("5 minutes", 300000)
  end.

Record Pagination := { page : nat; limit : nat; total : nat; pages : nat }.

Record StockSymbolsResponse := {
  data : list Stock.t;
  response_pagination : option Pagination
}.

(** A running [setInterval]: its id, its period, and the values of
    [pagination] and [updateCounter] of the render in which
    [startRealTimeUpdates] ran, which the callback is closed over. *)
Record interval := {
  iid : nat;
  period : nat;
  seen_page : nat;
  seen_limit : nat;
  seen_updateCounter : nat
}.

(** Requests sent to the backend. *)
Inductive call :=
  | searchStockSymbols (term : string)
  | fetchStockSymbols (page limit : nat).

(** The state of the component ([useState] and [useRef] cells), the timers
    it owns, the number of search requests not answered yet, the toasts
    shown and the requests sent so far. [timeout] is the variable of the
    closure of [debounce]; [updateCounter] counts ticks and stays far
    below 2^53, so it is a natural number; a [Date] is the value of the
    clock in milliseconds. *)
Record state := {
  stockSymbols : list Stock.t;
  searchQuery : string;
  searchResults : list Stock.t;
  isSearching : bool;
  pagination : Pagination;
  isUserAuthenticated : bool;
  isRealTimeEnabled : bool;
  refreshInterval : RefreshInterval;
  lastUpdateTime : option nat;
  isConnected : bool;
  updateCounter : nat;
  intervalRef : option nat;
  lastUpdateRef : option nat;
  timeout : option nat;
  clock : Timers.clock string;
  intervals : list interval;
  awaitedSearches : nat;
  toasts : list toast;
  calls : list call
}.

Definition set_stockSymbols (v : list Stock.t) (s : state) : state :=
  {| stockSymbols := v; searchQuery := searchQuery s; searchResults := searchResults s;
     isSearching := isSearching s; pagination := pagination s;
     isUserAuthenticated := isUserAuthenticated s;
     isRealTimeEnabled := isRealTimeEnabled s; refreshInterval := refreshInterval s;
     lastUpdateTime := lastUpdateTime s; isConnected := isConnected s;
     updateCounter := updateCounter s; intervalRef := intervalRef s;
     lastUpdateRef := lastUpdateRef s; timeout := timeout s; clock := clock s;
     intervals := intervals s; awaitedSearches := awaitedSearches s;
     toasts := toasts s; calls := calls s |}.

Definition set_searchQuery (v : string) (s : state) : state :=
  {| stockSymbols := stockSymbols s; searchQuery := v;
     searchResults := searchResults s; isSearching := isSearching s;
     pagination := pagination s; isUserAuthenticated := isUserAuthenticated s;
     isRealTimeEnabled := isRealTimeEnabled s; refreshInterval := refreshInterval s;
     lastUpdateTime := lastUpdateTime s; isConnected := isConnected s;
     updateCounter := updateCounter s; intervalRef := intervalRef s;
     lastUpdateRef := lastUpdateRef s; timeout := timeout s; clock := clock s;
     intervals := intervals s; awaitedSearches := awaitedSearches s;
     toasts := toasts s; calls := calls s |}.

Definition set_searchResults (v : list Stock.t) (s : state) : state :=
  {| stockSymbols := stockSymbols s; searchQuery := searchQuery s; searchResults := v;
     isSearching := isSearching s; pagination := pagination s;
     isUserAuthenticated := isUserAuthenticated s;
     isRealTimeEnabled := isRealTimeEnabled s; refreshInterval := refreshInterval s;
     lastUpdateTime := lastUpdateTime s; isConnected := isConnected s;
     updateCounter := updateCounter s; intervalRef := intervalRef s;
     lastUpdateRef := lastUpdateRef s; timeout := timeout s; clock := clock s;
     intervals := intervals s; awaitedSearches := awaitedSearches s;
     toasts := toasts s; calls := calls s |}.

Definition set_isSearching (v : bool) (s : state) : state :=
  {| stockSymbols := stockSymbols s; searchQuery := searchQuery s;
     searchResults := searchResults s; isSearching := v; pagination := pagination s;
     isUserAuthenticated := isUserAuthenticated s;
     isRealTimeEnabled := isRealTimeEnabled s; refreshInterval := refreshInterval s;
     lastUpdateTime := lastUpdateTime s; isConnected := isConnected s;
     updateCounter := updateCounter s; intervalRef := intervalRef s;
     lastUpdateRef := lastUpdateRef s; timeout := timeout s; clock := clock s;
     intervals := intervals s; awaitedSearches := awaitedSearches s;
     toasts := toasts s; calls := calls s |}.

Definition set_pagination (v : Pagination) (s : state) : state :=
  {| stockSymbols := stockSymbols s; searchQuery := searchQuery s;
     searchResults := searchResults s; isSearching := isSearching s; pagination := v;
     isUserAuthenticated := isUserAuthenticated s;
     isRealTimeEnabled := isRealTimeEnabled s; refreshInterval := refreshInterval s;
     lastUpdateTime := lastUpdateTime s; isConnected := isConnected s;
     updateCounter := updateCounter s; intervalRef := intervalRef s;
     lastUpdateRef := lastUpdateRef s; timeout := timeout s; clock := clock s;
     intervals := intervals s; awaitedSearches := awaitedSearches s;
     toasts := toasts s; calls := calls s |}.

Definition set_isUserAuthenticated (v : bool) (s : state) : state :=
  {| stockSymbols := stockSymbols s; searchQuery := searchQuery s;
     searchResults := searchResults s; isSearching := isSearching s;
     pagination := pagination s; isUserAuthenticated := v;
     isRealTimeEnabled := isRealTimeEnabled s; refreshInterval := refreshInterval s;
     lastUpdateTime := lastUpdateTime s; isConnected := isConnected s;
     updateCounter := updateCounter s; intervalRef := intervalRef s;
     lastUpdateRef := lastUpdateRef s; timeout := timeout s; clock := clock s;
     intervals := intervals s; awaitedSearches := awaitedSearches s;
     toasts := toasts s; calls := calls s |}.

Definition set_isRealTimeEnabled (v : bool) (s : state) : state :=
  {| stockSymbols := stockSymbols s; searchQuery := searchQuery s;
     searchResults := searchResults s; isSearching := isSearching s;
     pagination := pagination s; isUserAuthenticated := isUserAuthenticated s;
     isRealTimeEnabled := v; refreshInterval := refreshInterval s;
     lastUpdateTime := lastUpdateTime s; isConnected := isConnected s;
     updateCounter := updateCounter s; intervalRef := intervalRef s;
     lastUpdateRef := lastUpdateRef s; timeout := timeout s; clock := clock s;
     intervals := intervals s; awaitedSearches := awaitedSearches s;
     toasts := toasts s; calls := calls s |}.

Definition set_refreshInterval (v : RefreshInterval) (s : state) : state :=
  {| stockSymbols := stockSymbols s; searchQuery := searchQuery s;
     searchResults := searchResults s; isSearching := isSearching s;
     pagination := pagination s; isUserAuthenticated := isUserAuthenticated s;
     isRealTimeEnabled := isRealTimeEnabled s; refreshInterval := v;
     lastUpdateTime := lastUpdateTime s; isConnected := isConnected s;
     updateCounter := updateCounter s; intervalRef := intervalRef s;
     lastUpdateRef := lastUpdateRef s; timeout := timeout s; clock := clock s;
     intervals := intervals s; awaitedSearches := awaitedSearches s;
     toasts := toasts s; calls := calls s |}.

Definition set_lastUpdateTime (v : option nat) (s : state) : state :=
  {| stockSymbols := stockSymbols s; searchQuery := searchQuery s;
     searchResults := searchResults s; isSearching := isSearching s;
     pagination := pagination s; isUserAuthenticated := isUserAuthenticated s;
     isRealTimeEnabled := isRealTimeEnabled s; refreshInterval := refreshInterval s;
     lastUpdateTime := v; isConnected := isConnected s;
     updateCounter := updateCounter s; intervalRef := intervalRef s;
     lastUpdateRef := lastUpdateRef s; timeout := timeout s; clock := clock s;
     intervals := intervals s; awaitedSearches := awaitedSearches s;
     toasts := toasts s; calls := calls s |}.

Definition set_isConnected (v : bool) (s : state) : state :=
  {| stockSymbols := stockSymbols s; searchQuery := searchQuery s;
     searchResults := searchResults s; isSearching := isSearching s;
     pagination := pagination s; isUserAuthenticated := isUserAuthenticated s;
     isRealTimeEnabled := isRealTimeEnabled s; refreshInterval := refreshInterval s;
     lastUpdateTime := lastUpdateTime s; isConnected := v;
     updateCounter := updateCounter s; intervalRef := intervalRef s;
     lastUpdateRef := lastUpdateRef s; timeout := timeout s; clock := clock s;
     intervals := intervals s; awaitedSearches := awaitedSearches s;
     toasts := toasts s; calls := calls s |}.

Definition set_updateCounter (v : nat) (s : state) : state :=
  {| stockSymbols := stockSymbols s; searchQuery := searchQuery s;
     searchResults := searchResults s; isSearching := isSearching s;
     pagination := pagination s; isUserAuthenticated := isUserAuthenticated s;
     isRealTimeEnabled := isRealTimeEnabled s; refreshInterval := refreshInterval s;
     lastUpdateTime := lastUpdateTime s; isConnected := isConnected s;
     updateCounter := v; intervalRef := intervalRef s;
     lastUpdateRef := lastUpdateRef s; timeout := timeout s; clock := clock s;
     intervals := intervals s; awaitedSearches := awaitedSearches s;
     toasts := toasts s; calls := calls s |}.

Definition set_intervalRef (v : option nat) (s : state) : state :=
  {| stockSymbols := stockSymbols s; searchQuery := searchQuery s;
     searchResults := searchResults s; isSearching := isSearching s;
     pagination := pagination s; isUserAuthenticated := isUserAuthenticated s;
     isRealTimeEnabled := isRealTimeEnabled s; refreshInterval := refreshInterval s;
     lastUpdateTime := lastUpdateTime s; isConnected := isConnected s;
     updateCounter := updateCounter s; intervalRef := v;
     lastUpdateRef := lastUpdateRef s; timeout := timeout s; clock := clock s;
     intervals := intervals s; awaitedSearches := awaitedSearches s;
     toasts := toasts s; calls := calls s |}.

Definition set_lastUpdateRef (v : option nat) (s : state) : state :=
  {| stockSymbols := stockSymbols s; searchQuery := searchQuery s;
     searchResults := searchResults s; isSearching := isSearching s;
     pagination := pagination s; isUserAuthenticated := isUserAuthenticated s;
     isRealTimeEnabled := isRealTimeEnabled s; refreshInterval := refreshInterval s;
     lastUpdateTime := lastUpdateTime s; isConnected := isConnected s;
     updateCounter := updateCounter s; intervalRef := intervalRef s;
     lastUpdateRef := v; timeout := timeout s; clock := clock s;
     intervals := intervals s; awaitedSearches := awaitedSearches s;
     toasts := toasts s; calls := calls s |}.

Definition set_timeout (v : option nat) (s : state) : state :=
  {| stockSymbols := stockSymbols s; searchQuery := searchQuery s;
     searchResults := searchResults s; isSearching := isSearching s;
     pagination := pagination s; isUserAuthenticated := isUserAuthenticated s;
     isRealTimeEnabled := isRealTimeEnabled s; refreshInterval := refreshInterval s;
     lastUpdateTime := lastUpdateTime s; isConnected := isConnected s;
     updateCounter := updateCounter s; intervalRef := intervalRef s;
     lastUpdateRef := lastUpdateRef s; timeout := v; clock := clock s;
     intervals := intervals s; awaitedSearches := awaitedSearches s;
     toasts := toasts s; calls := calls s |}.

Definition set_clock (v : Timers.clock string) (s : state) : state :=
  {| stockSymbols := stockSymbols s; searchQuery := searchQuery s;
     searchResults := searchResults s; isSearching := isSearching s;
     pagination := pagination s; isUserAuthenticated := isUserAuthenticated s;
     isRealTimeEnabled := isRealTimeEnabled s; refreshInterval := refreshInterval s;
     lastUpdateTime := lastUpdateTime s; isConnected := isConnected s;
     updateCounter := updateCounter s; intervalRef := intervalRef s;
     lastUpdateRef := lastUpdateRef s; timeout := timeout s; clock := v;
     intervals := intervals s; awaitedSearches := awaitedSearches s;
     toasts := toasts s; calls := calls s |}.

Definition set_intervals (v : list interval) (s : state) : state :=
  {| stockSymbols := stockSymbols s; searchQuery := searchQuery s;
     searchResults := searchResults s; isSearching := isSearching s;
     pagination := pagination s; isUserAuthenticated := isUserAuthenticated s;
     isRealTimeEnabled := isRealTimeEnabled s; refreshInterval := refreshInterval s;
     lastUpdateTime := lastUpdateTime s; isConnected := isConnected s;
     updateCounter := updateCounter s; intervalRef := intervalRef s;
     lastUpdateRef := lastUpdateRef s; timeout := timeout s; clock := clock s;
     intervals := v; awaitedSearches := awaitedSearches s; toasts := toasts s;
     calls := calls s |}.

Definition set_awaitedSearches (v : nat) (s : state) : state :=
  {| stockSymbols := stockSymbols s; searchQuery := searchQuery s;
     searchResults := searchResults s; isSearching := isSearching s;
     pagination := pagination s; isUserAuthenticated := isUserAuthenticated s;
     isRealTimeEnabled := isRealTimeEnabled s; refreshInterval := refreshInterval s;
     lastUpdateTime := lastUpdateTime s; isConnected := isConnected s;
     updateCounter := updateCounter s; intervalRef := intervalRef s;
     lastUpdateRef := lastUpdateRef s; timeout := timeout s; clock := clock s;
     intervals := intervals s; awaitedSearches := v; toasts := toasts s;
     calls := calls s |}.

Definition set_toasts (v : list toast) (s : state) : state :=
  {| stockSymbols := stockSymbols s; searchQuery := searchQuery s;
     searchResults := searchResults s; isSearching := isSearching s;
     pagination := pagination s; isUserAuthenticated := isUserAuthenticated s;
     isRealTimeEnabled := isRealTimeEnabled s; refreshInterval := refreshInterval s;
     lastUpdateTime := lastUpdateTime s; isConnected := isConnected s;
     updateCounter := updateCounter s; intervalRef := intervalRef s;
     lastUpdateRef := lastUpdateRef s; timeout := timeout s; clock := clock s;
     intervals := intervals s; awaitedSearches := awaitedSearches s; toasts := v;
     calls := calls s |}.

Definition set_calls (v : list call) (s : state) : state :=
  {| stockSymbols := stockSymbols s; searchQuery := searchQuery s;
     searchResults := searchResults s; isSearching := isSearching s;
     pagination := pagination s; isUserAuthenticated := isUserAuthenticated s;
     isRealTimeEnabled := isRealTimeEnabled s; refreshInterval := refreshInterval s;
     lastUpdateTime := lastUpdateTime s; isConnected := isConnected s;
     updateCounter := updateCounter s; intervalRef := intervalRef s;
     lastUpdateRef := lastUpdateRef s; timeout := timeout s; clock := clock s;
     intervals := intervals s; awaitedSearches := awaitedSearches s;
     toasts := toasts s; calls := v |}.

Definition add_toast (t : toast) (s : state) : state := set_toasts (toasts s ++ [t]) s.
Definition add_call (c : call) (s : state) : state := set_calls (calls s ++ [c]) s.

(** [clearInterval(i)]. *)
Definition clearInterval (i : nat) (s : state) : state :=
  set_intervals (List.filter (fun x => negb (iid x =? i)) (intervals s)) s.

Definition stopRealTimeUpdates (s : state) : state :=
  match intervalRef s with
  | Some i =>
      if i =? 0 then s
      else set_intervalRef None (clearInterval i s)
  | None => s
  end.

Definition bump_next_id (s : state) : state :=
  set_clock {| Timers.now := Timers.now (clock s);
               Timers.next_id := S (Timers.next_id (clock s));
               Timers.pending := Timers.pending (clock s) |} s.

Definition startRealTimeUpdates (s : state) : state :=
  let s1 := stopRealTimeUpdates s in
  let interval := snd (REFRESH_INTERVALS (refreshInterval s)) in
  let i := Timers.next_id (clock s1) in
  let timer := {| iid := i; period := interval;
                  seen_page := page (pagination s); seen_limit := limit (pagination s);
                  seen_updateCounter := updateCounter s |} in
  set_intervalRef (Some i) (set_intervals (intervals s1 ++ [timer]) (bump_next_id s1)).

(** The body of the real-time effect. *)
Definition realTime_effect (s : state) : state :=
  if isRealTimeEnabled s && isUserAuthenticated s
  then startRealTimeUpdates s
  else stopRealTimeUpdates s.

(** A change of [isRealTimeEnabled], [refreshInterval] or
    [isUserAuthenticated]: the cleanup of the previous run, then the body. *)
Definition realTime_rerun (s : state) : state :=
  realTime_effect (stopRealTimeUpdates s).

Definition setIsRealTimeEnabled (b : bool) (s : state) : state :=
  if Bool.eqb b (isRealTimeEnabled s) then s
  else realTime_rerun (set_isRealTimeEnabled b s).

Definition RefreshInterval_eqb (a b : RefreshInterval) : bool :=
  match a, b with
  | r5, r5 | r10, r10 | r30, r30 | r60, r60 | r300, r300 => true
  | _, _ => false
  end.

Definition setRefreshInterval (r : RefreshInterval) (s : state) : state :=
  if RefreshInterval_eqb r (refreshInterval s) then s
  else realTime_rerun (set_refreshInterval r s).

(** The component goes away: the cleanup of the effect runs. *)
Definition unmount (s : state) : state := stopRealTimeUpdates s.

Definition time_string (t : nat) : string := JS.string_of_N (N.of_nat t).

(** [refreshStockData] as run by the callback of the interval [i], the
    backend answering [r]: the state it leaves and the error it rethrows,
    if any. *)
Definition refreshStockData (i : interval) (r : outcome StockSymbolsResponse)
    (s : state) : state * option js_error :=
  let now := Timers.now (clock s) in
  let s := add_call (fetchStockSymbols (seen_page i) (seen_limit i)) s in
  match r with
  | resolved response =>
      let s := set_stockSymbols (data response) s in
      let s := match response_pagination response with
               | Some p => set_pagination p s
               | None => s
               end in
      let s := set_lastUpdateTime (Some now) s in
      let s := set_lastUpdateRef (Some now) s in
      let s := set_updateCounter (updateCounter s + 1) s in
      (if 0 <? seen_updateCounter i
       then add_toast {| toast_title := "Data Updated";
                         toast_description :=
                           "Stock prices refreshed at " ++ time_string now;
                         destructive := false |} s
       else s, None)
  | rejected e => (s, Some e)
  end.

(** One run of the callback given to [setInterval]. *)
Definition tick (i : interval) (r : outcome StockSymbolsResponse) (s : state) : state :=
  match refreshStockData i r s with
  | (s', None) => set_isConnected true s'
  | (s', Some _) => set_isConnected false s'
  end.

(** The function given to [debounce]: up to the [await]. *)
Definition debouncedSearch_body (term : string) (s : state) : state :=
  if String.length term <? 2 then set_searchResults [] s
  else
    set_awaitedSearches (S (awaitedSearches s))
      (add_call (searchStockSymbols term) (set_isSearching true s)).

(** The function given to [debounce]: from the answer [r] on. *)
Definition debouncedSearch_resume (r : outcome (list Stock.t)) (s : state) : state :=
  set_isSearching false
    match r with
    | resolved results => set_searchResults results s
    | rejected e =>
        set_searchResults []
          (add_toast {| toast_title := "Search Error";
                        toast_description :=
                          error_message e "Failed to search stock symbols";
                        destructive := true |} s)
    end.

(** [debouncedSearch(term)], with the quiet period of 300 ms. *)
Definition debouncedSearch (term : string) (s : state) : state :=
  let '(t, c) := Timers.debounce 300 term (timeout s, clock s) in
  set_clock c (set_timeout t s).

(** The effect on [searchQuery]. *)
Definition searchQuery_effect (s : state) : state :=
  if JS.truthy (searchQuery s) then debouncedSearch (searchQuery s) s
  else set_searchResults [] s.

(** [setSearchQuery(q)] from the search box, and the effect when the
    query changed. *)
Definition setSearchQuery (q : string) (s : state) : state :=
  if (q =? searchQuery s)%string then s
  else searchQuery_effect (set_searchQuery q s).

(** [dt] milliseconds pass and the timeouts that became due fire. *)
Definition elapse (dt : nat) (s : state) : state :=
  let '(fired, c) := Timers.advance dt (clock s) in
  fold_left (fun s t => debouncedSearch_body (Timers.targ t) s) fired (set_clock c s).

Definition displayData (s : state) : list Stock.t :=
  if JS.truthy (searchQuery s) && (0 <? length (searchResults s))
  then searchResults s else stockSymbols s.

(** The title of the card above the table. *)
Definition table_title (s : state) : string :=
  if JS.truthy (searchQuery s) then "Search Results" else "Stock Symbols".

(** What can happen to a mounted page: time passes, the user types in the
    search box, a search request is answered, the user switches real-time
    mode or picks a period, the callback of the interval [i] runs and the
    backend answers it with [r]. *)
Inductive event :=
  | Elapse (dt : nat)
  | SetSearchQuery (q : string)
  | SearchAnswer (r : outcome (list Stock.t))
  | SetIsRealTimeEnabled (b : bool)
  | SetRefreshInterval (r : RefreshInterval)
  | Tick (i : nat) (r : outcome StockSymbolsResponse).

Definition step (s : state) (e : event) : state :=
  match e with
  | Elapse dt => elapse dt s
  | SetSearchQuery q => setSearchQuery q s
  | SearchAnswer r =>
      match awaitedSearches s with
      | S n => debouncedSearch_resume r (set_awaitedSearches n s)
      | O => s
      end
  | SetIsRealTimeEnabled b => setIsRealTimeEnabled b s
  | SetRefreshInterval r => setRefreshInterval r s
  | Tick i r =>
      match find (fun x => iid x =? i) (intervals s) with
      | Some t => tick t r s
      | None => s
      end
  end.

Definition run (es : list event) (s : state) : state := fold_left step es s.

(** The page after its first render and effects, before the first list of
    symbols arrives; [auth] is the answer of [isAuthenticated()]. *)
Definition initial (auth : bool) : state :=
  {| stockSymbols := []; searchQuery := ""; searchResults := [];
     isSearching := false;
     pagination := {| page := 1; limit := 50; total := 0; pages := 0 |};
     isUserAuthenticated := auth; isRealTimeEnabled := false;
     refreshInterval := r30; lastUpdateTime := None; isConnected := true;
     updateCounter := 0; intervalRef := None; lastUpdateRef := None;
     timeout := None;
     clock := {| Timers.now := 0; Timers.next_id := 1; Timers.pending := [] |};
     intervals := []; awaitedSearches := 0; toasts := []; calls := [] |}.

(** The search requests among the requests sent. *)
Definition search_calls (s : state) : list string :=
  flat_map (fun c => match c with searchStockSymbols t => [t] | _ => [] end) (calls s).

(** The polling requests among the requests sent. *)
Definition polling_calls (s : state) : list (nat * nat) :=
  flat_map (fun c => match c with fetchStockSymbols p l => [(p, l)] | _ => [] end)
    (calls s).

(** A burst of edits of the search box: before each new input, the time
    since the previous one. *)
Definition edits := list (nat * string).

Definition edit_events (es : edits) : list event :=
  flat_map (fun e => [Elapse (fst e); SetSearchQuery (snd e)]) es.

(** Every edit but the first comes less than [quiet] ms after the one
    before. *)
Definition rapid (quiet : nat) (es : edits) : Prop :=
  Forall (fun e => fst e < quiet) (tl es).


(** *** Invariants of the page *)

(** The debounce is armed for [q]: the query is [q], and the only pending
    timeout is the one the closure remembers, due a full quiet period
    from now, with [q] as its argument. *)
Definition armed (s : state) (q : string) : Prop :=
  searchQuery s = q /\
  exists i, timeout s = Some i /\
    Timers.pending (clock s) =
      [{| Timers.tid := i; Timers.due := Timers.now (clock s) + 300; Timers.targ := q |}].

(** Every edit of the burst is a non-empty string that differs from the
    input before it ([q0] at the start). *)
Fixpoint changes (q0 : string) (es : edits) : Prop :=
  match es with
  | [] => True
  | e :: r => snd e <> q0 /\ snd e <> "" /\ changes (snd e) r
  end.

(** The refresh loop owns its timer: the id counter is positive, and
    either no interval is running or exactly one is, the one [intervalRef]
    holds. *)
Definition owned (s : state) : Prop :=
  0 < Timers.next_id (clock s) /\
  (intervals s = [] \/
   exists t, intervals s = [t] /\ intervalRef s = Some (iid t) /\ iid t <> 0).

(** Moreover an interval runs only in real-time mode, for a logged-in
    user. *)
Definition one_interval (s : state) : Prop :=
  owned s /\
  (isRealTimeEnabled s && isUserAuthenticated s = false -> intervals s = []).

(** The running interval has the configured period. *)
Definition configured (s : state) : Prop :=
  forall t, In t (intervals s) -> period t = snd (REFRESH_INTERVALS (refreshInterval s)).

(** An event other than switching real-time mode on. *)
Definition keeps_off (e : event) : bool :=
  match e with
  | SetIsRealTimeEnabled true => false
  | _ => true
  end.

End Page.

(** ** components/tip-form-dialog.tsx: the dialog *)

Module Tip.

(** [Tip] of [lib/api-tips], by the fields the dialog reads; [content] is
    [None] when it is not an array, otherwise its key/value blocks. *)
Record t := {
  _id : option string;
  title : option string;
  stockId : option string;
  stockSymbol : option string;
  stockName : option string;
  category : option string;
  content : option (list (string * string));
  description : option string;
  status : option string;
  action : option string;
  buyRange : option string;
  targetPrice : option string;
  targetPercentage : option string;
  addMoreAt : option string;
  exitPrice : option string;
  exitStatus : option string;
  exitStatusPercentage : option string;
  horizon : option string;
  tipUrl : option string;
  analysistConfidence : option JS.number
}.

End Tip.

Module Dialog.

Import TipSchema.

(** [CreateTipRequest] as [onValidSubmit] builds it. *)
Record CreateTipRequest := {
  req_title : option string;
  req_stockId : string;
  req_stockSymbol : option string;
  req_stockName : string;
  req_category : option string;
  req_content : list (string * string);
  req_description : option string;
  req_status : option string;
  req_action : option string;
  req_buyRange : option string;
  req_targetPrice : option string;
  req_targetPercentage : option string;
  req_addMoreAt : option string;
  req_tipUrl : option string;
  req_exitPrice : option string;
  req_exitStatus : option string;
  req_exitStatusPercentage : option string;
  req_horizon : string;
  req_analysistConfidence : option JS.number;
  req_downloadLinks : option (list (string * string))
}.

(** Requests sent to the backend, and the [onSubmit] prop. *)
Inductive call :=
  | fetchStockSymbolById (id : string)
  | searchStockSymbols (term : string)
  | updateTip (id : string) (tipData : CreateTipRequest)
  | onSubmit (tipData : CreateTipRequest).

(** The props [open] and [initialData] as the parent last passed them
    ([onOpenChange] is the parent's setter of [open]), the [useState]
    cells, the values and default values of the form, the errors of the
    last validation, the module-level [stockDetailsCache], the variable
    [timeout] of the closure of [debounce] with the pending timers, the
    search requests and the detail lookups not answered yet (a lookup
    with the tip its continuation is closed over), the toasts shown and
    the requests sent so far. *)
Record state := {
  open : bool;
  initialData : option Tip.t;
  searchTerm : string;
  searchResults : list Stock.t;
  isSearching : bool;
  showResults : bool;
  selectedStockDetails : option Stock.t;
  focusedIndex : Z;
  isAutoCalcTarget : bool;
  isAutoCalcExit : bool;
  values : TipFormValues;
  defaultValues : TipFormValues;
  errors : list issue;
  stockDetailsCache : gmap string Stock.t;
  timeout : option nat;
  clock : Timers.clock string;
  awaitedSearches : nat;
  awaitedDetails : list Tip.t;
  toasts : list toast;
  calls : list call
}.

Definition set_open (v : bool) (s : state) : state :=
  {| open := v; initialData := initialData s; searchTerm := searchTerm s;
     searchResults := searchResults s; isSearching := isSearching s;
     showResults := showResults s; selectedStockDetails := selectedStockDetails s;
     focusedIndex := focusedIndex s; isAutoCalcTarget := isAutoCalcTarget s;
     isAutoCalcExit := isAutoCalcExit s; values := values s;
     defaultValues := defaultValues s; errors := errors s;
     stockDetailsCache := stockDetailsCache s; timeout := timeout s; clock := clock s;
     awaitedSearches := awaitedSearches s; awaitedDetails := awaitedDetails s;
     toasts := toasts s; calls := calls s |}.

Definition set_initialData (v : option Tip.t) (s : state) : state :=
  {| open := open s; initialData := v; searchTerm := searchTerm s;
     searchResults := searchResults s; isSearching := isSearching s;
     showResults := showResults s; selectedStockDetails := selectedStockDetails s;
     focusedIndex := focusedIndex s; isAutoCalcTarget := isAutoCalcTarget s;
     isAutoCalcExit := isAutoCalcExit s; values := values s;
     defaultValues := defaultValues s; errors := errors s;
     stockDetailsCache := stockDetailsCache s; timeout := timeout s; clock := clock s;
     awaitedSearches := awaitedSearches s; awaitedDetails := awaitedDetails s;
     toasts := toasts s; calls := calls s |}.

Definition set_searchTerm (v : string) (s : state) : state :=
  {| open := open s; initialData := initialData s; searchTerm := v;
     searchResults := searchResults s; isSearching := isSearching s;
     showResults := showResults s; selectedStockDetails := selectedStockDetails s;
     focusedIndex := focusedIndex s; isAutoCalcTarget := isAutoCalcTarget s;
     isAutoCalcExit := isAutoCalcExit s; values := values s;
     defaultValues := defaultValues s; errors := errors s;
     stockDetailsCache := stockDetailsCache s; timeout := timeout s; clock := clock s;
     awaitedSearches := awaitedSearches s; awaitedDetails := awaitedDetails s;
     toasts := toasts s; calls := calls s |}.

Definition set_searchResults (v : list Stock.t) (s : state) : state :=
  {| open := open s; initialData := initialData s; searchTerm := searchTerm s;
     searchResults := v; isSearching := isSearching s; showResults := showResults s;
     selectedStockDetails := selectedStockDetails s; focusedIndex := focusedIndex s;
     isAutoCalcTarget := isAutoCalcTarget s; isAutoCalcExit := isAutoCalcExit s;
     values := values s; defaultValues := defaultValues s; errors := errors s;
     stockDetailsCache := stockDetailsCache s; timeout := timeout s; clock := clock s;
     awaitedSearches := awaitedSearches s; awaitedDetails := awaitedDetails s;
     toasts := toasts s; calls := calls s |}.

Definition set_isSearching (v : bool) (s : state) : state :=
  {| open := open s; initialData := initialData s; searchTerm := searchTerm s;
     searchResults := searchResults s; isSearching := v; showResults := showResults s;
     selectedStockDetails := selectedStockDetails s; focusedIndex := focusedIndex s;
     isAutoCalcTarget := isAutoCalcTarget s; isAutoCalcExit := isAutoCalcExit s;
     values := values s; defaultValues := defaultValues s; errors := errors s;
     stockDetailsCache := stockDetailsCache s; timeout := timeout s; clock := clock s;
     awaitedSearches := awaitedSearches s; awaitedDetails := awaitedDetails s;
     toasts := toasts s; calls := calls s |}.

Definition set_showResults (v : bool) (s : state) : state :=
  {| open := open s; initialData := initialData s; searchTerm := searchTerm s;
     searchResults := searchResults s; isSearching := isSearching s; showResults := v;
     selectedStockDetails := selectedStockDetails s; focusedIndex := focusedIndex s;
     isAutoCalcTarget := isAutoCalcTarget s; isAutoCalcExit := isAutoCalcExit s;
     values := values s; defaultValues := defaultValues s; errors := errors s;
     stockDetailsCache := stockDetailsCache s; timeout := timeout s; clock := clock s;
     awaitedSearches := awaitedSearches s; awaitedDetails := awaitedDetails s;
     toasts := toasts s; calls := calls s |}.

Definition set_selectedStockDetails (v : option Stock.t) (s : state) : state :=
  {| open := open s; initialData := initialData s; searchTerm := searchTerm s;
     searchResults := searchResults s; isSearching := isSearching s;
     showResults := showResults s; selectedStockDetails := v;
     focusedIndex := focusedIndex s; isAutoCalcTarget := isAutoCalcTarget s;
     isAutoCalcExit := isAutoCalcExit s; values := values s;
     defaultValues := defaultValues s; errors := errors s;
     stockDetailsCache := stockDetailsCache s; timeout := timeout s; clock := clock s;
     awaitedSearches := awaitedSearches s; awaitedDetails := awaitedDetails s;
     toasts := toasts s; calls := calls s |}.

Definition set_focusedIndex (v : Z) (s : state) : state :=
  {| open := open s; initialData := initialData s; searchTerm := searchTerm s;
     searchResults := searchResults s; isSearching := isSearching s;
     showResults := showResults s; selectedStockDetails := selectedStockDetails s;
     focusedIndex := v; isAutoCalcTarget := isAutoCalcTarget s;
     isAutoCalcExit := isAutoCalcExit s; values := values s;
     defaultValues := defaultValues s; errors := errors s;
     stockDetailsCache := stockDetailsCache s; timeout := timeout s; clock := clock s;
     awaitedSearches := awaitedSearches s; awaitedDetails := awaitedDetails s;
     toasts := toasts s; calls := calls s |}.

Definition set_isAutoCalcTarget (v : bool) (s : state) : state :=
  {| open := open s; initialData := initialData s; searchTerm := searchTerm s;
     searchResults := searchResults s; isSearching := isSearching s;
     showResults := showResults s; selectedStockDetails := selectedStockDetails s;
     focusedIndex := focusedIndex s; isAutoCalcTarget := v;
     isAutoCalcExit := isAutoCalcExit s; values := values s;
     defaultValues := defaultValues s; errors := errors s;
     stockDetailsCache := stockDetailsCache s; timeout := timeout s; clock := clock s;
     awaitedSearches := awaitedSearches s; awaitedDetails := awaitedDetails s;
     toasts := toasts s; calls := calls s |}.

Definition set_isAutoCalcExit (v : bool) (s : state) : state :=
  {| open := open s; initialData := initialData s; searchTerm := searchTerm s;
     searchResults := searchResults s; isSearching := isSearching s;
     showResults := showResults s; selectedStockDetails := selectedStockDetails s;
     focusedIndex := focusedIndex s; isAutoCalcTarget := isAutoCalcTarget s;
     isAutoCalcExit := v; values := values s; defaultValues := defaultValues s;
     errors := errors s; stockDetailsCache := stockDetailsCache s;
     timeout := timeout s; clock := clock s; awaitedSearches := awaitedSearches s;
     awaitedDetails := awaitedDetails s; toasts := toasts s; calls := calls s |}.

Definition set_values (v : TipFormValues) (s : state) : state :=
  {| open := open s; initialData := initialData s; searchTerm := searchTerm s;
     searchResults := searchResults s; isSearching := isSearching s;
     showResults := showResults s; selectedStockDetails := selectedStockDetails s;
     focusedIndex := focusedIndex s; isAutoCalcTarget := isAutoCalcTarget s;
     isAutoCalcExit := isAutoCalcExit s; values := v; defaultValues := defaultValues s;
     errors := errors s; stockDetailsCache := stockDetailsCache s;
     timeout := timeout s; clock := clock s; awaitedSearches := awaitedSearches s;
     awaitedDetails := awaitedDetails s; toasts := toasts s; calls := calls s |}.

Definition set_defaultValues (v : TipFormValues) (s : state) : state :=
  {| open := open s; initialData := initialData s; searchTerm := searchTerm s;
     searchResults := searchResults s; isSearching := isSearching s;
     showResults := showResults s; selectedStockDetails := selectedStockDetails s;
     focusedIndex := focusedIndex s; isAutoCalcTarget := isAutoCalcTarget s;
     isAutoCalcExit := isAutoCalcExit s; values := values s; defaultValues := v;
     errors := errors s; stockDetailsCache := stockDetailsCache s;
     timeout := timeout s; clock := clock s; awaitedSearches := awaitedSearches s;
     awaitedDetails := awaitedDetails s; toasts := toasts s; calls := calls s |}.

Definition set_errors (v : list issue) (s : state) : state :=
  {| open := open s; initialData := initialData s; searchTerm := searchTerm s;
     searchResults := searchResults s; isSearching := isSearching s;
     showResults := showResults s; selectedStockDetails := selectedStockDetails s;
     focusedIndex := focusedIndex s; isAutoCalcTarget := isAutoCalcTarget s;
     isAutoCalcExit := isAutoCalcExit s; values := values s;
     defaultValues := defaultValues s; errors := v;
     stockDetailsCache := stockDetailsCache s; timeout := timeout s; clock := clock s;
     awaitedSearches := awaitedSearches s; awaitedDetails := awaitedDetails s;
     toasts := toasts s; calls := calls s |}.

Definition set_stockDetailsCache (v : gmap string Stock.t) (s : state) : state :=
  {| open := open s; initialData := initialData s; searchTerm := searchTerm s;
     searchResults := searchResults s; isSearching := isSearching s;
     showResults := showResults s; selectedStockDetails := selectedStockDetails s;
     focusedIndex := focusedIndex s; isAutoCalcTarget := isAutoCalcTarget s;
     isAutoCalcExit := isAutoCalcExit s; values := values s;
     defaultValues := defaultValues s; errors := errors s; stockDetailsCache := v;
     timeout := timeout s; clock := clock s; awaitedSearches := awaitedSearches s;
     awaitedDetails := awaitedDetails s; toasts := toasts s; calls := calls s |}.

Definition set_timeout (v : option nat) (s : state) : state :=
  {| open := open s; initialData := initialData s; searchTerm := searchTerm s;
     searchResults := searchResults s; isSearching := isSearching s;
     showResults := showResults s; selectedStockDetails := selectedStockDetails s;
     focusedIndex := focusedIndex s; isAutoCalcTarget := isAutoCalcTarget s;
     isAutoCalcExit := isAutoCalcExit s; values := values s;
     defaultValues := defaultValues s; errors := errors s;
     stockDetailsCache := stockDetailsCache s; timeout := v; clock := clock s;
     awaitedSearches := awaitedSearches s; awaitedDetails := awaitedDetails s;
     toasts := toasts s; calls := calls s |}.

Definition set_clock (v : Timers.clock string) (s : state) : state :=
  {| open := open s; initialData := initialData s; searchTerm := searchTerm s;
     searchResults := searchResults s; isSearching := isSearching s;
     showResults := showResults s; selectedStockDetails := selectedStockDetails s;
     focusedIndex := focusedIndex s; isAutoCalcTarget := isAutoCalcTarget s;
     isAutoCalcExit := isAutoCalcExit s; values := values s;
     defaultValues := defaultValues s; errors := errors s;
     stockDetailsCache := stockDetailsCache s; timeout := timeout s; clock := v;
     awaitedSearches := awaitedSearches s; awaitedDetails := awaitedDetails s;
     toasts := toasts s; calls := calls s |}.

Definition set_awaitedSearches (v : nat) (s : state) : state :=
  {| open := open s; initialData := initialData s; searchTerm := searchTerm s;
     searchResults := searchResults s; isSearching := isSearching s;
     showResults := showResults s; selectedStockDetails := selectedStockDetails s;
     focusedIndex := focusedIndex s; isAutoCalcTarget := isAutoCalcTarget s;
     isAutoCalcExit := isAutoCalcExit s; values := values s;
     defaultValues := defaultValues s; errors := errors s;
     stockDetailsCache := stockDetailsCache s; timeout := timeout s; clock := clock s;
     awaitedSearches := v; awaitedDetails := awaitedDetails s; toasts := toasts s;
     calls := calls s |}.

Definition set_awaitedDetails (v : list Tip.t) (s : state) : state :=
  {| open := open s; initialData := initialData s; searchTerm := searchTerm s;
     searchResults := searchResults s; isSearching := isSearching s;
     showResults := showResults s; selectedStockDetails := selectedStockDetails s;
     focusedIndex := focusedIndex s; isAutoCalcTarget := isAutoCalcTarget s;
     isAutoCalcExit := isAutoCalcExit s; values := values s;
     defaultValues := defaultValues s; errors := errors s;
     stockDetailsCache := stockDetailsCache s; timeout := timeout s; clock := clock s;
     awaitedSearches := awaitedSearches s; awaitedDetails := v; toasts := toasts s;
     calls := calls s |}.

Definition set_toasts (v : list toast) (s : state) : state :=
  {| open := open s; initialData := initialData s; searchTerm := searchTerm s;
     searchResults := searchResults s; isSearching := isSearching s;
     showResults := showResults s; selectedStockDetails := selectedStockDetails s;
     focusedIndex := focusedIndex s; isAutoCalcTarget := isAutoCalcTarget s;
     isAutoCalcExit := isAutoCalcExit s; values := values s;
     defaultValues := defaultValues s; errors := errors s;
     stockDetailsCache := stockDetailsCache s; timeout := timeout s; clock := clock s;
     awaitedSearches := awaitedSearches s; awaitedDetails := awaitedDetails s;
     toasts := v; calls := calls s |}.

Definition set_calls (v : list call) (s : state) : state :=
  {| open := open s; initialData := initialData s; searchTerm := searchTerm s;
     searchResults := searchResults s; isSearching := isSearching s;
     showResults := showResults s; selectedStockDetails := selectedStockDetails s;
     focusedIndex := focusedIndex s; isAutoCalcTarget := isAutoCalcTarget s;
     isAutoCalcExit := isAutoCalcExit s; values := values s;
     defaultValues := defaultValues s; errors := errors s;
     stockDetailsCache := stockDetailsCache s; timeout := timeout s; clock := clock s;
     awaitedSearches := awaitedSearches s; awaitedDetails := awaitedDetails s;
     toasts := toasts s; calls := v |}.

Definition add_toast (t : toast) (s : state) : state := set_toasts (toasts s ++ [t]) s.
Definition add_call (c : call) (s : state) : state := set_calls (calls s ++ [c]) s.

(** [setValue(field, v)] and [watch(field)] of the form. *)
Definition setValue (upd : TipFormValues -> TipFormValues) (s : state) : state :=
  set_values (upd (values s)) s.

(** [reset(v)]: the values given become the values and the default
    values of the form. *)
Definition reset_to (v : TipFormValues) (s : state) : state :=
  set_defaultValues v (set_values v s).

(** [reset()]: back to the default values. *)
Definition reset (s : state) : state := set_values (defaultValues s) s.

Definition hundred : JS.number := JS.of_Z 100.
Definition zero : JS.number := JS.of_Z 0.

(** [((price - currentPrice) / currentPrice * 100).toFixed(2)] followed
    by the percent sign. *)
Definition percentage (price currentPrice : JS.number) : string :=
  JS.toFixed2 (JS.mul (JS.div (JS.sub price currentPrice) currentPrice) hundred) ++ "%".

(** The effect that auto-calculates the target percentage, for the render
    [r]; the writes go to [s]. *)
Definition autoCalcTarget_effect (r s : state) : state :=
  match selectedStockDetails r with
  | Some stock =>
      if isAutoCalcTarget r && JS.truthy_opt (targetPrice (values r)) then
        let currentPrice := JS.parseFloat (Stock.currentPrice stock) in
        let targetPrice := JS.parseFloat (JS.or_else (targetPrice (values r)) "") in
        if JS.gt currentPrice zero && JS.gt targetPrice zero
        then setValue (set_targetPercentage (Some (percentage targetPrice currentPrice))) s
        else s
      else s
  | None => s
  end.

(** The effect that auto-calculates the exit percentage. *)
Definition autoCalcExit_effect (r s : state) : state :=
  match selectedStockDetails r with
  | Some stock =>
      if isAutoCalcExit r && JS.truthy_opt (exitPrice (values r)) then
        let currentPrice := JS.parseFloat (Stock.currentPrice stock) in
        let exitPrice := JS.parseFloat (JS.or_else (exitPrice (values r)) "") in
        if JS.gt currentPrice zero && JS.gt exitPrice zero
        then setValue (set_exitStatusPercentage (Some (percentage exitPrice currentPrice))) s
        else s
      else s
  | None => s
  end.

(** [content.find(c => c.key === "main")?.value || content[0]?.value || ""]. *)
Definition contentString (content : option (list (string * string))) : string :=
  match content with
  | Some l =>
      JS.or_else (option_map snd (find (fun c => (fst c =? "main")%string) l))
        (JS.or_else (option_map snd (head l)) "")
  | None => ""
  end.

(** [c || 5] on a possibly undefined number: 0 and NaN are falsy. *)
Definition confidence_or_5 (c : option JS.number) : JS.number :=
  match c with
  | Some (S754_zero _) | Some S754_nan | None => JS.of_Z 5
  | Some x => x
  end.

(** The values the form is reset to for an existing tip. *)
Definition values_of_tip (d : Tip.t) : TipFormValues :=
  {| title := Some (JS.or_else (Tip.title d) "");
     stockId := Some (JS.or_else (Tip.stockId d) "");
     stockSymbol := Some (JS.or_else (Tip.stockSymbol d) "");
     stockName := Some (JS.or_else (Tip.stockName d) "");
     category := Some (JS.or_else (Tip.category d) "basic");
     content := Some (contentString (Tip.content d));
     description := Some (JS.or_else (Tip.description d) "");
     status := Some (JS.or_else (Tip.status d) "Active");
     action := Some (JS.or_else (Tip.action d) "");
     buyRange := Some (JS.or_else (Tip.buyRange d) "");
     targetPrice := Some (JS.or_else (Tip.targetPrice d) "");
     targetPercentage := Some (JS.or_else (Tip.targetPercentage d) "");
     addMoreAt := Some (JS.or_else (Tip.addMoreAt d) "");
     exitPrice := Some (JS.or_else (Tip.exitPrice d) "");
     exitStatus := Some (JS.or_else (Tip.exitStatus d) "");
     exitStatusPercentage := Some (JS.or_else (Tip.exitStatusPercentage d) "");
     horizon := Some (JS.or_else (Tip.horizon d) "Long Term");
     tipUrl := Some (JS.or_else (Tip.tipUrl d) "");
     analysistConfidence := Some (confidence_or_5 (Tip.analysistConfidence d)) |}.

(** The values of an empty form. *)
Definition empty_values : TipFormValues :=
  {| title := Some ""; stockId := Some ""; stockSymbol := Some "";
     stockName := Some ""; category := Some "basic"; content := Some "";
     description := Some ""; status := Some "Active"; action := Some "";
     buyRange := Some ""; targetPrice := Some ""; targetPercentage := Some "";
     addMoreAt := Some ""; exitPrice := Some ""; exitStatus := Some "";
     exitStatusPercentage := Some ""; horizon := Some "Long Term";
     tipUrl := Some ""; analysistConfidence := Some (JS.of_Z 5) |}.

(** [fetchStockDetails] for the tip [d] with the truthy stock id [k], up
    to the [await]: the cache is looked up first. *)
Definition fetchStockDetails (d : Tip.t) (k : string) (s : state) : state :=
  match stockDetailsCache s !! k with
  | Some stock => set_selectedStockDetails (Some stock) s
  | None =>
      set_awaitedDetails (awaitedDetails s ++ [d]) (add_call (fetchStockSymbolById k) s)
  end.

(** The record built from the tip itself when the lookup fails. *)
Definition fallbackStock (d : Tip.t) : Stock.t :=
  {| Stock._id := JS.or_else (Tip.stockId d) "";
     Stock.id := None;
     Stock.symbol := JS.or_else (Tip.stockSymbol d) "";
     Stock.name := JS.or_else (Tip.stockName d) "";
     Stock.exchange := "";
     Stock.currentPrice := JS.or_else (Tip.targetPrice d) "0";
     Stock.previousPrice := "0" |}.

(** [fetchStockDetails] for the tip [d] from the answer [r] on. *)
Definition fetchStockDetails_resume (d : Tip.t) (r : outcome Stock.t) (s : state) : state :=
  match r with
  | resolved stock =>
      set_selectedStockDetails (Some stock)
        (set_stockDetailsCache
           (<[JS.or_else (Tip.stockId d) "" := stock]> (stockDetailsCache s)) s)
  | rejected _ => set_selectedStockDetails (Some (fallbackStock d)) s
  end.

(** The effect on [open] and [initialData]. *)
Definition open_effect (r s : state) : state :=
  if open r then
    match initialData r with
    | Some d =>
        let s := if JS.truthy_opt (Tip.stockId d)
                 then fetchStockDetails d (JS.or_else (Tip.stockId d) "") s
                 else s in
        reset_to (values_of_tip d) s
    | None =>
        set_showResults false
          (set_searchTerm ""
             (set_selectedStockDetails None (reset_to empty_values s)))
    end
  else s.

(** The function given to [debounce]: up to the [await]. *)
Definition debouncedSearch_body (term : string) (s : state) : state :=
  if String.length term <? 2
  then set_showResults false (set_searchResults [] s)
  else
    set_awaitedSearches (S (awaitedSearches s))
      (add_call (searchStockSymbols term) (set_isSearching true s)).

(** The function given to [debounce]: from the answer [r] on. *)
Definition debouncedSearch_resume (r : outcome (list Stock.t)) (s : state) : state :=
  set_isSearching false
    match r with
    | resolved results =>
        set_focusedIndex (-1)%Z (set_showResults true (set_searchResults results s))
    | rejected e =>
        set_showResults false
          (set_searchResults []
             (add_toast {| toast_title := "Search Error";
                           toast_description :=
                             error_message e "Failed to search stocks";
                           destructive := true |} s))
    end.

(** [debouncedSearch(term)], with the quiet period of 300 ms. *)
Definition debouncedSearch (term : string) (s : state) : state :=
  let '(t, c) := Timers.debounce 300 term (timeout s, clock s) in
  set_clock c (set_timeout t s).

(** The effect on [searchTerm]. *)
Definition searchTerm_effect (r s : state) : state := debouncedSearch (searchTerm r) s.

Definition handleStockSelect (stock : Stock.t) (s : state) : state :=
  let s := set_showResults false (set_searchTerm "" (set_selectedStockDetails (Some stock) s)) in
  let stockId := JS.or_str (Stock._id stock) (JS.or_else (Stock.id stock) "") in
  let s := setValue (set_stockId (Some stockId)) s in
  let s := setValue (set_stockSymbol (Some (Stock.symbol stock))) s in
  let s := setValue (set_stockName (Some (Stock.name stock))) s in
  let s := if JS.truthy stockId
           then set_stockDetailsCache (<[stockId := stock]> (stockDetailsCache s)) s
           else s in
  if JS.truthy_opt (title (values s)) then s
  else setValue (set_title (Some (Stock.symbol stock ++ " Investment Tip"))) s.

Definition handleStockClear (s : state) : state :=
  let s := set_showResults false (set_searchTerm "" (set_selectedStockDetails None s)) in
  setValue (set_stockName (Some ""))
    (setValue (set_stockSymbol (Some "")) (setValue (set_stockId (Some "")) s)).

Inductive key := ArrowDown | ArrowUp | Enter | Escape | other_key.

Definition handleKeyDown (k : key) (s : state) : state :=
  if negb (showResults s) || (length (searchResults s) =? 0) then s
  else
    match k with
    | ArrowDown =>
        if (focusedIndex s <? Z.of_nat (length (searchResults s)) - 1)%Z
        then set_focusedIndex (focusedIndex s + 1)%Z s else s
    | ArrowUp =>
        if (0 <? focusedIndex s)%Z then set_focusedIndex (focusedIndex s - 1)%Z s else s
    | Enter =>
        if (0 <=? focusedIndex s)%Z then
          match nth_error (searchResults s) (Z.to_nat (focusedIndex s)) with
          | Some stock => handleStockSelect stock s
          | None => s
          end
        else s
    | Escape => set_focusedIndex (-1)%Z (set_showResults false s)
    | other_key => s
    end.

(** The outside-click listener, for a click outside the result list and
    the search box. *)
Definition handleClickOutside (s : state) : state :=
  set_focusedIndex (-1)%Z (set_showResults false s).

(** The object sent to the backend for the validated values [data]. *)
Definition tipData (stockId : string) (data : TipFormValues) (s : state) : CreateTipRequest :=
  {| req_title := title data;
     req_stockId := stockId;
     req_stockSymbol :=
       match selectedStockDetails s with
       | Some stock =>
           if JS.truthy (Stock.symbol stock) then Some (Stock.symbol stock)
           else stockSymbol data
       | None => stockSymbol data
       end;
     req_stockName :=
       match selectedStockDetails s with
       | Some stock => JS.or_str (Stock.name stock) ""
       | None => ""
       end;
     req_category := category data;
     req_content := [("main", JS.or_else (content data) "")];
     req_description := description data;
     req_status := status data;
     req_action := action data;
     req_buyRange := buyRange data;
     req_targetPrice := targetPrice data;
     req_targetPercentage := targetPercentage data;
     req_addMoreAt := addMoreAt data;
     req_tipUrl := tipUrl data;
     req_exitPrice := exitPrice data;
     req_exitStatus := exitStatus data;
     req_exitStatusPercentage := exitStatusPercentage data;
     req_horizon := JS.or_else (horizon data) "Long Term";
     req_analysistConfidence := analysistConfidence data;
     req_downloadLinks :=
       if JS.truthy_opt (tipUrl data)
       then Some [("Analysis Report", JS.or_else (tipUrl data) "")]
       else None |}.

(** The [catch] block of [onValidSubmit]. *)
Definition submit_failed (e : js_error) (s : state) : state :=
  add_toast {| toast_title := "Error";
               toast_description := error_message e "Failed to save tip";
               destructive := true |} s.

(** What follows the [await] of [onValidSubmit] when it returns. *)
Definition submit_succeeded (description : string) (s : state) : state :=
  let s := add_toast {| toast_title := "Success"; toast_description := description;
                        destructive := false |} s in
  set_showResults false
    (set_searchTerm "" (set_selectedStockDetails None (reset (set_open false s)))).

(** [selectedStockDetails?._id || data.stockId]. *)
Definition submit_stockId (data : TipFormValues) (s : state) : string :=
  match selectedStockDetails s with
  | Some stock => JS.or_str (Stock._id stock) (JS.or_else (stockId data) "")
  | None => JS.or_else (stockId data) ""
  end.

(** [onValidSubmit(data)]; [r] is the answer to [updateTip] or to the
    [onSubmit] prop, whichever is awaited. *)
Definition onValidSubmit (data : TipFormValues) (r : outcome unit) (s : state) : state :=
  match selectedStockDetails s, JS.truthy_opt (stockId data) with
  | None, false => submit_failed (Error "Stock ID is missing") s
  | _, _ =>
      let stockId := submit_stockId data s in
      if negb (JS.truthy stockId) then submit_failed (Error "Stock ID is required") s
      else
        let existing :=
          match initialData s with
          | Some d => if JS.truthy_opt (Tip._id d) then Tip._id d else None
          | None => None
          end in
        match existing with
        | Some i =>
            let s := add_call (updateTip i (tipData stockId data s)) s in
            match r with
            | resolved _ => submit_succeeded "Tip updated successfully" s
            | rejected e => submit_failed e s
            end
        | None =>
            let s := add_call (onSubmit (tipData stockId data s)) s in
            match r with
            | resolved _ => submit_succeeded "Tip created successfully" s
            | rejected e => submit_failed e s
            end
        end
  end.

(** [handleSubmit(onValidSubmit)]: the resolver validates the values, and
    only valid values reach [onValidSubmit]. *)
Definition handleSubmit (r : outcome unit) (s : state) : state :=
  match tipSchema (values s) with
  | [] => onValidSubmit (values s) r (set_errors [] s)
  | issues => set_errors issues s
  end.

#[global] Instance spec_float_eq_dec : EqDecision spec_float.
Proof. solve_decision. Defined.

#[global] Instance Stock_eq_dec : EqDecision Stock.t.
Proof. solve_decision. Defined.

#[global] Instance Tip_eq_dec : EqDecision Tip.t.
Proof. solve_decision. Defined.

(** Whether a dependency of an effect changed between two renders;
    objects are compared by their contents. *)
Definition changed {A : Type} `{EqDecision A} (a b : A) : bool := negb (bool_decide (a = b)).

(** The effects of the render [r] that follows the render [prev], in the
    order of their declaration: each runs when one of its dependencies
    changed. *)
Definition commit (prev r : state) : state :=
  let s := r in
  let s := if changed (targetPrice (values prev)) (targetPrice (values r))
              || changed (selectedStockDetails prev) (selectedStockDetails r)
              || changed (isAutoCalcTarget prev) (isAutoCalcTarget r)
           then autoCalcTarget_effect r s else s in
  let s := if changed (exitPrice (values prev)) (exitPrice (values r))
              || changed (selectedStockDetails prev) (selectedStockDetails r)
              || changed (isAutoCalcExit prev) (isAutoCalcExit r)
           then autoCalcExit_effect r s else s in
  let s := if changed (open prev) (open r) || changed (initialData prev) (initialData r)
           then open_effect r s else s in
  if changed (searchTerm prev) (searchTerm r) then searchTerm_effect r s else s.

(** Renders and effects until no effect has anything left to do; three
    rounds are enough for every handler of the dialog. *)
Fixpoint settle (rounds : nat) (prev r : state) : state :=
  match rounds with
  | O => r
  | S n => settle n r (commit prev r)
  end.

(** The handler [h] runs on [s], then the renders it causes. *)
Definition after (h : state -> state) (s : state) : state := settle 3 s (h s).

(** The inputs of the form. *)
Inductive field :=
  | f_title | f_category | f_content | f_description | f_action | f_buyRange
  | f_targetPrice | f_targetPercentage | f_addMoreAt | f_exitPrice
  | f_exitStatusPercentage | f_exitStatus | f_horizon | f_status | f_tipUrl.

Definition action_in (l : list string) (s : state) : bool :=
  includes l (JS.or_else (action (values s)) "").

Definition showTargetFields (s : state) : bool := action_in ["buy"; "sell"] s.
Definition showExitFields (s : state) : bool :=
  action_in ["partial sell"; "partial profit"] s.
Definition showAddMoreField (s : state) : bool := action_in ["buy"; "hold"; "add more"] s.
Definition showClosedTipFields (s : state) : bool :=
  (JS.or_else (status (values s)) "" =? "Closed")%string.

(** Whether the input of the field is on the page and enabled. *)
Definition editable (f : field) (s : state) : bool :=
  match f with
  | f_targetPrice => showTargetFields s
  | f_targetPercentage => showTargetFields s && negb (isAutoCalcTarget s)
  | f_addMoreAt => showTargetFields s && showAddMoreField s
  | f_exitPrice => showExitFields s
  | f_exitStatusPercentage =>
      (showExitFields s && negb (isAutoCalcExit s)) || showClosedTipFields s
  | f_exitStatus => showExitFields s || showClosedTipFields s
  | _ => true
  end.

Definition set_field (f : field) (v : string) : TipFormValues -> TipFormValues :=
  match f with
  | f_title => set_title (Some v)
  | f_category => set_category (Some v)
  | f_content => set_content (Some v)
  | f_description => set_description (Some v)
  | f_action => set_action (Some v)
  | f_buyRange => set_buyRange (Some v)
  | f_targetPrice => set_targetPrice (Some v)
  | f_targetPercentage => set_targetPercentage (Some v)
  | f_addMoreAt => set_addMoreAt (Some v)
  | f_exitPrice => set_exitPrice (Some v)
  | f_exitStatusPercentage => set_exitStatusPercentage (Some v)
  | f_exitStatus => set_exitStatus (Some v)
  | f_horizon => set_horizon (Some v)
  | f_status => set_status (Some v)
  | f_tipUrl => set_tipUrl (Some v)
  end.

(** [dt] milliseconds pass and the timeouts that became due fire. *)
Definition elapse (dt : nat) (s : state) : state :=
  let '(fired, c) := Timers.advance dt (clock s) in
  fold_left (fun s t => debouncedSearch_body (Timers.targ t) s) fired (set_clock c s).

Fixpoint remove_first (d : Tip.t) (l : list Tip.t) : list Tip.t :=
  match l with
  | [] => []
  | x :: r => if bool_decide (x = d) then r else x :: remove_first d r
  end.

(** What can happen to a mounted dialog: the parent opens it for a tip or
    for a new one, the user cancels, time passes, the user edits an input,
    toggles an auto-calculation, types in the search box, a search or a
    detail lookup that is awaited is answered, the user picks a result,
    clears the stock, presses a key in the search box, clicks elsewhere,
    or submits, the backend answering the save with [r]. *)
Inductive event :=
  | Open (d : option Tip.t)
  | Cancel
  | Elapse (dt : nat)
  | Input (f : field) (v : string)
  | InputConfidence (n : JS.number)
  | ToggleAutoCalcTarget
  | ToggleAutoCalcExit
  | InputSearchTerm (q : string)
  | SearchAnswer (r : outcome (list Stock.t))
  | DetailsAnswer (d : Tip.t) (r : outcome Stock.t)
  | ClickResult (i : nat)
  | ClickClear
  | KeyDown (k : key)
  | ClickOutside
  | Submit (r : outcome unit).

Definition handler (e : event) (s : state) : state :=
  match e with
  | Open d => set_initialData d (set_open true s)
  | Cancel => set_open false s
  | Elapse dt => elapse dt s
  | Input f v => if editable f s then setValue (set_field f v) s else s
  | InputConfidence n => setValue (set_analysistConfidence (Some n)) s
  | ToggleAutoCalcTarget =>
      if showTargetFields s then set_isAutoCalcTarget (negb (isAutoCalcTarget s)) s else s
  | ToggleAutoCalcExit =>
      if showExitFields s then set_isAutoCalcExit (negb (isAutoCalcExit s)) s else s
  | InputSearchTerm q =>
      match selectedStockDetails s with
      | None => set_searchTerm q s
      | Some _ => s
      end
  | SearchAnswer r =>
      match awaitedSearches s with
      | S n => debouncedSearch_resume r (set_awaitedSearches n s)
      | O => s
      end
  | DetailsAnswer d r =>
      if bool_decide (d ∈ awaitedDetails s)
      then fetchStockDetails_resume d r
             (set_awaitedDetails (remove_first d (awaitedDetails s)) s)
      else s
  | ClickResult i =>
      match selectedStockDetails s, showResults s, nth_error (searchResults s) i with
      | None, true, Some stock => handleStockSelect stock s
      | _, _, _ => s
      end
  | ClickClear =>
      match selectedStockDetails s, initialData s with
      | Some _, None => handleStockClear s
      | _, _ => s
      end
  | KeyDown k =>
      match selectedStockDetails s with
      | None => handleKeyDown k s
      | Some _ => s
      end
  | ClickOutside => handleClickOutside s
  | Submit r => handleSubmit r s
  end.

Definition step (s : state) (e : event) : state := after (handler e) s.

Definition run (es : list event) (s : state) : state := fold_left step es s.

(** The dialog after its first render, closed and without a tip, and the
    effects of that render; [cache] is the module-level cache as earlier
    dialogs left it. *)
Definition initial (cache : gmap string Stock.t) : state :=
  let r :=
    {| open := false; initialData := None; searchTerm := ""; searchResults := [];
       isSearching := false; showResults := false; selectedStockDetails := None;
       focusedIndex := (-1)%Z; isAutoCalcTarget := true; isAutoCalcExit := true;
       values := empty_values; defaultValues := empty_values; errors := [];
       stockDetailsCache := cache; timeout := None;
       clock := {| Timers.now := 0; Timers.next_id := 1; Timers.pending := [] |};
       awaitedSearches := 0; awaitedDetails := []; toasts := []; calls := [] |} in
  searchTerm_effect r (open_effect r (autoCalcExit_effect r (autoCalcTarget_effect r r))).

(** The detail lookups among the requests sent. *)
Definition detail_calls (s : state) : list string :=
  flat_map (fun c => match c with fetchStockSymbolById k => [k] | _ => [] end) (calls s).

(** *** Invariants of the dialog *)

(** Everything an effect of the dialog depends on. *)
Definition deps (s : state) :=
  (targetPrice (values s), exitPrice (values s), selectedStockDetails s,
   isAutoCalcTarget s, isAutoCalcExit s, open s, initialData s, searchTerm s).

(** The state without what the auto-calculation effects and the debounce
    write: the two percentage fields and the timers. *)
Definition masked (s : state) : state :=
  set_clock {| Timers.now := 0; Timers.next_id := 0; Timers.pending := [] |}
    (set_timeout None
       (set_values
          (set_targetPercentage None (set_exitStatusPercentage None (values s))) s)).

(** No record is cached under the empty key, and every awaited lookup is
    for a tip with a stock id. *)
Definition cache_sane (s : state) : Prop :=
  stockDetailsCache s !! "" = None /\
  forall d, d ∈ awaitedDetails s -> JS.truthy_opt (Tip.stockId d) = true.

End Dialog.

(** ** Sample data and sessions *)

Module Examples.

Definition tcs : Stock.t :=
  {| Stock._id := "s1"; Stock.id := None; Stock.symbol := "TCS";
     Stock.name := "Tata Consultancy Services"; Stock.exchange := "NSE";
     Stock.currentPrice := "150.00"; Stock.previousPrice := "148.00" |}.

Definition infy : Stock.t :=
  {| Stock._id := "s2"; Stock.id := None; Stock.symbol := "INFY";
     Stock.name := "Infosys"; Stock.exchange := "NSE";
     Stock.currentPrice := "1500"; Stock.previousPrice := "1480" |}.

(** A stored tip on a stock the cache has never seen. *)
Definition wipro_tip : Tip.t :=
  {| Tip._id := Some "t9"; Tip.title := Some "Wipro Investment Tip";
     Tip.stockId := Some "s9"; Tip.stockSymbol := Some "WIPRO";
     Tip.stockName := Some "Wipro"; Tip.category := Some "basic";
     Tip.content := Some [("main", "Accumulate on dips near support.")];
     Tip.description := Some "Large-cap IT pick"; Tip.status := Some "Active";
     Tip.action := Some "buy"; Tip.buyRange := Some "400-420";
     Tip.targetPrice := Some "180"; Tip.targetPercentage := Some "12%";
     Tip.addMoreAt := None; Tip.exitPrice := None; Tip.exitStatus := None;
     Tip.exitStatusPercentage := None; Tip.horizon := Some "Long Term";
     Tip.tipUrl := Some "https://example.com/wipro.pdf";
     Tip.analysistConfidence := Some (JS.of_Z 7) |}.

(** A stored tip on TCS. *)
Definition tcs_tip : Tip.t :=
  {| Tip._id := Some "t1"; Tip.title := Some "TCS Investment Tip";
     Tip.stockId := Some "s1"; Tip.stockSymbol := Some "TCS";
     Tip.stockName := Some "Tata Consultancy Services"; Tip.category := Some "basic";
     Tip.content := Some [("main", "Accumulate on dips near support.")];
     Tip.description := Some "Large-cap IT pick"; Tip.status := Some "Active";
     Tip.action := Some "buy"; Tip.buyRange := Some "100-200";
     Tip.targetPrice := Some "180"; Tip.targetPercentage := Some "20.00%";
     Tip.addMoreAt := None; Tip.exitPrice := None; Tip.exitStatus := None;
     Tip.exitStatusPercentage := None; Tip.horizon := Some "Long Term";
     Tip.tipUrl := Some "https://example.com/analysis.pdf";
     Tip.analysistConfidence := Some (JS.of_Z 5) |}.

(** The dialog is opened for a new tip, the user searches, picks TCS and
    chooses to recommend buying. *)
Definition picking_tcs : list Dialog.event :=
  [Dialog.Open None; Dialog.InputSearchTerm "tc"; Dialog.Elapse 300;
   Dialog.SearchAnswer (resolved [tcs]); Dialog.ClickResult 0;
   Dialog.Input Dialog.f_action "buy"].

Definition tcs_picked : Dialog.state := Dialog.run picking_tcs (Dialog.initial ∅).

(** The same, with the target price entered. *)
Definition tcs_target_entered : Dialog.state :=
  Dialog.step tcs_picked (Dialog.Input Dialog.f_targetPrice "180").

(** The user types two queries, picks TCS from the answer to the first,
    the answer to the second arrives afterwards, and the form is filled
    in. *)
Definition filling_with_late_answer : list Dialog.event :=
  [Dialog.Open None; Dialog.InputSearchTerm "ab"; Dialog.Elapse 300;
   Dialog.InputSearchTerm "abc"; Dialog.Elapse 300;
   Dialog.SearchAnswer (resolved [tcs]); Dialog.ClickResult 0; Dialog.Elapse 300;
   Dialog.SearchAnswer (resolved [infy]);
   Dialog.Input Dialog.f_content "Accumulate on dips near support.";
   Dialog.Input Dialog.f_description "Large-cap IT pick";
   Dialog.Input Dialog.f_action "buy"; Dialog.Input Dialog.f_buyRange "100-200";
   Dialog.Input Dialog.f_targetPrice "180";
   Dialog.Input Dialog.f_tipUrl "https://example.com/analysis.pdf"].

Definition form_filled : Dialog.state :=
  Dialog.run filling_with_late_answer (Dialog.initial ∅).

(** TCS was picked in an earlier session of the dialog, which was then
    cancelled. *)
Definition earlier_session : list Dialog.event :=
  [Dialog.Open None; Dialog.InputSearchTerm "tc"; Dialog.Elapse 300;
   Dialog.SearchAnswer (resolved [tcs]); Dialog.ClickResult 0; Dialog.Cancel].

(** The dialog is opened for the Wipro tip and waits for its stock. *)
Definition wipro_awaited : Dialog.state :=
  Dialog.run [Dialog.Open (Some wipro_tip)] (Dialog.initial ∅).

(** Real-time mode was switched on, at the period of 5 seconds. *)
Definition polling : Page.state :=
  Page.run [Page.SetIsRealTimeEnabled true; Page.SetRefreshInterval Page.r5]
    (Page.initial true).

Definition one_row : Page.StockSymbolsResponse :=
  {| Page.data := [tcs]; Page.response_pagination := None |}.

(** The page shows TCS and a search found nothing. *)
Definition nothing_found : Page.state :=
  Page.run [Page.Elapse 10; Page.SetSearchQuery "zz"; Page.Elapse 300;
            Page.SearchAnswer (resolved [])]
    (Page.set_stockSymbols [tcs] (Page.initial true)).

End Examples.

(** * Properties *)

(** Case analysis on the innermost scrutinee of the goal. *)
Ltac break_match :=
  match goal with
  | |- context [match ?x with _ => _ end] =>
      lazymatch x with
      | context [match _ with _ => _ end] => fail
      | _ => destruct x
      end
  end.

(** ** The validation schema *)

Section SchemaFacts.

Import TipSchema.

Lemma targetPrice_is_not_validated (t : option string) (v : TipFormValues) :
  tipSchema (set_targetPrice t v) = tipSchema v.
Proof. reflexivity. Qed.

(** Claim C1, on the code. The schema accepts the tip with action "buy"
    and an empty target price, as it accepts the same tip with action
    "hold", with or without the key: the target price never enters the
    validation, so no required-field error can be raised for it. *)
Theorem buy_tip_without_target_price_passes :
  tipSchema buy_tip_without_target = [] /\
  action buy_tip_without_target = Some "buy" /\
  targetPrice buy_tip_without_target = Some "" /\
  tipSchema (set_targetPrice None buy_tip_without_target) = [] /\
  tipSchema (set_action (Some "hold") buy_tip_without_target) = [] /\
  tipSchema (set_targetPrice None (set_action (Some "hold") buy_tip_without_target)) = [].
Proof. repeat split; vm_compute; reflexivity. Qed.

(** The examples of the buy range given with the schema. *)
Example buyRange_examples :
  map rangePattern_test ["100-200"; "100.50-200.75"; "100- 200-"; "abc-200"] =
  [true; true; false; false].
Proof. vm_compute. reflexivity. Qed.

End SchemaFacts.

(** ** The stock-symbols page *)

Section PageFacts.

Import Page.

Lemma truthy_true (q : string) : JS.truthy q = true <-> q <> "".
Proof.
  unfold JS.truthy. rewrite negb_true_iff. split.
  - intros H E. subst q. discriminate.
  - intros H. apply String.eqb_neq. exact H.
Qed.

(** Claim C10. With a non-empty query and no result the table shows the
    whole list of symbols, under the title "Search Results"; whenever the
    table shows anything but the whole list it shows the search results,
    of which there is at least one, for a non-empty query. *)
Theorem displayData_falls_back_to_all_symbols (s : state) :
  (JS.truthy (searchQuery s) = true -> searchResults s = [] ->
     displayData s = stockSymbols s /\ table_title s = "Search Results") /\
  (displayData s <> stockSymbols s ->
     displayData s = searchResults s /\ 0 < length (searchResults s) /\
     searchQuery s <> "").
Proof.
  unfold displayData, table_title. split.
  - intros Hq Hr. rewrite Hq, Hr. split; reflexivity.
  - destruct (JS.truthy (searchQuery s)) eqn:Hq; simpl; [|congruence].
    destruct (0 <? length (searchResults s)) eqn:Hl; [|congruence].
    intros _. apply Nat.ltb_lt in Hl. apply truthy_true in Hq. auto.
Qed.

Lemma displayData_falls_back_witness :
  let s := Examples.nothing_found in
  JS.truthy (searchQuery s) = true /\ searchResults s = [] /\
  displayData s = [Examples.tcs] /\ table_title s = "Search Results".
Proof.
  split; [vm_compute; reflexivity|]. split; [vm_compute; reflexivity|].
  apply (displayData_falls_back_to_all_symbols Examples.nothing_found);
    vm_compute; reflexivity.
Defined.

Lemma polling_calls_add_fetch (s : state) (p l : nat) :
  polling_calls (add_call (fetchStockSymbols p l) s) = (polling_calls s ++ [(p, l)])%list.
Proof. unfold polling_calls, add_call. simpl. rewrite flat_map_app. reflexivity. Qed.

Lemma tick_rejected (t : interval) (e : js_error) (s : state) :
  tick t (rejected e) s =
  set_isConnected false (add_call (fetchStockSymbols (seen_page t) (seen_limit t)) s).
Proof. reflexivity. Qed.

Lemma tick_intervals (t : interval) (r : outcome StockSymbolsResponse) (s : state) :
  intervals (tick t r s) = intervals s /\ intervalRef (tick t r s) = intervalRef s /\
  isRealTimeEnabled (tick t r s) = isRealTimeEnabled s /\
  isUserAuthenticated (tick t r s) = isUserAuthenticated s /\
  clock (tick t r s) = clock s /\
  polling_calls (tick t r s) = (polling_calls s ++ [(seen_page t, seen_limit t)])%list.
Proof.
  destruct r as [resp|e]; unfold tick, refreshStockData.
  - destruct (response_pagination resp), (0 <? seen_updateCounter t); simpl;
      repeat split; try reflexivity;
      unfold polling_calls; simpl; rewrite flat_map_app; reflexivity.
  - simpl. repeat split; try reflexivity.
    unfold polling_calls; simpl; rewrite flat_map_app; reflexivity.
Qed.

(** Claim C6. For the callback of a running interval: when the fetch
    fails the page is marked disconnected, the rows and the counter stay
    as they were, the interval and [intervalRef] are untouched, so the
    next run of the callback polls again (same timer, same period); when
    the fetch succeeds the page is marked connected, the counter grows
    strictly and the rows are the ones received. *)
Theorem failed_tick_keeps_the_loop_running (s : state) (i : nat) (t : interval)
    (Hrun : find (fun x => iid x =? i) (intervals s) = Some t) :
  (forall e : js_error,
     let s' := step s (Tick i (rejected e)) in
     isConnected s' = false /\ stockSymbols s' = stockSymbols s /\
     updateCounter s' = updateCounter s /\
     intervals s' = intervals s /\ intervalRef s' = intervalRef s /\
     forall r, polling_calls (step s' (Tick i r)) =
               (polling_calls s' ++ [(seen_page t, seen_limit t)])%list) /\
  (forall resp : StockSymbolsResponse,
     let s' := step s (Tick i (resolved resp)) in
     isConnected s' = true /\ updateCounter s < updateCounter s' /\
     stockSymbols s' = data resp /\ intervals s' = intervals s).
Proof.
  split.
  - intros e s'. subst s'. simpl. rewrite Hrun, tick_rejected.
    repeat split; try reflexivity.
    intros r. simpl. rewrite Hrun. apply tick_intervals.
  - intros resp s'. subst s'. simpl. rewrite Hrun.
    unfold tick, refreshStockData.
    destruct (response_pagination resp), (0 <? seen_updateCounter t); simpl;
      repeat split; try reflexivity; lia.
Qed.

Lemma failed_tick_witness :
  let s := Examples.polling in
  let s' := step s (Tick 2 (rejected thrown_value)) in
  map period (intervals s) = [5000] /\
  isConnected s' = false /\ intervals s' = intervals s /\
  updateCounter s < updateCounter (step s' (Tick 2 (resolved Examples.one_row))).
Proof.
  cbv zeta. split; [vm_compute; reflexivity|].
  assert (Hrun : find (fun x => iid x =? 2) (intervals Examples.polling) =
                 Some {| iid := 2; period := 5000; seen_page := 1; seen_limit := 50;
                         seen_updateCounter := 0 |}) by (vm_compute; reflexivity).
  destruct (failed_tick_keeps_the_loop_running Examples.polling 2 _ Hrun) as [Hfail _].
  destruct (Hfail thrown_value) as (A & _ & C & D & _).
  split; [exact A|]. split; [exact D|].
  vm_compute. apply Nat.lt_succ_diag_r.
Defined.

Lemma stop_clears (s : state) :
  owned s ->
  intervals (stopRealTimeUpdates s) = [] /\
  clock (stopRealTimeUpdates s) = clock s /\
  isRealTimeEnabled (stopRealTimeUpdates s) = isRealTimeEnabled s /\
  isUserAuthenticated (stopRealTimeUpdates s) = isUserAuthenticated s /\
  refreshInterval (stopRealTimeUpdates s) = refreshInterval s /\
  calls (stopRealTimeUpdates s) = calls s.
Proof.
  intros [Hid [Hnone | (t & Ht & Href & Hnz)]]; unfold stopRealTimeUpdates.
  - destruct (intervalRef s) as [i|]; [destruct (i =? 0)|]; simpl;
      rewrite ?Hnone; repeat split; reflexivity.
  - rewrite Href. destruct (iid t =? 0) eqn:E; [apply Nat.eqb_eq in E; lia|].
    unfold clearInterval. cbn. rewrite Ht. cbn. rewrite Nat.eqb_refl. cbn.
    repeat split; reflexivity.
Qed.

Lemma stop_owned (s : state) : owned s -> owned (stopRealTimeUpdates s).
Proof.
  intros H. destruct (stop_clears s H) as (Hi & Hc & _).
  split; [rewrite Hc; apply H | left; exact Hi].
Qed.

Lemma start_owned (s : state) : owned s -> owned (startRealTimeUpdates s).
Proof.
  intros H. destruct (stop_clears s H) as (Hi & Hc & _).
  destruct H as [Hid _]. unfold startRealTimeUpdates.
  split; simpl; [lia|]. right. rewrite Hi, Hc. simpl.
  eexists. split; [reflexivity|]. simpl. split; [reflexivity | lia].
Qed.

Lemma start_flags (s : state) :
  isRealTimeEnabled (startRealTimeUpdates s) = isRealTimeEnabled s /\
  isUserAuthenticated (startRealTimeUpdates s) = isUserAuthenticated s /\
  calls (startRealTimeUpdates s) = calls s.
Proof.
  unfold startRealTimeUpdates, stopRealTimeUpdates.
  destruct (intervalRef s) as [i|]; [destruct (i =? 0)|]; repeat split; reflexivity.
Qed.

Lemma rerun_one_interval (s : state) :
  owned s ->
  one_interval (realTime_rerun s) /\
  isRealTimeEnabled (realTime_rerun s) = isRealTimeEnabled s /\
  isUserAuthenticated (realTime_rerun s) = isUserAuthenticated s /\
  calls (realTime_rerun s) = calls s.
Proof.
  intros H. unfold realTime_rerun, realTime_effect.
  pose proof (stop_owned s H) as H1.
  destruct (stop_clears s H) as (Hi & Hc & He & Ha & _ & Hp).
  destruct (isRealTimeEnabled (stopRealTimeUpdates s) &&
            isUserAuthenticated (stopRealTimeUpdates s)) eqn:E.
  - destruct (start_flags (stopRealTimeUpdates s)) as (A & B & C).
    split; [split|]; [apply start_owned, H1 | | repeat split; congruence].
    rewrite A, B, E. discriminate.
  - destruct (stop_clears _ H1) as (Hi2 & Hc2 & He2 & Ha2 & _ & Hp2).
    split; [split|]; [apply stop_owned, H1 | | repeat split; congruence].
    intros _. exact Hi2.
Qed.

Lemma owned_frame (s s' : state) :
  owned s ->
  intervals s' = intervals s -> intervalRef s' = intervalRef s ->
  Timers.next_id (clock s) <= Timers.next_id (clock s') ->
  owned s'.
Proof.
  intros [Hid H] Hi Hr Hn. split; [lia|]. rewrite Hi, Hr. exact H.
Qed.

Lemma one_interval_frame (s s' : state) :
  one_interval s ->
  intervals s' = intervals s -> intervalRef s' = intervalRef s ->
  isRealTimeEnabled s' = isRealTimeEnabled s ->
  isUserAuthenticated s' = isUserAuthenticated s ->
  Timers.next_id (clock s) <= Timers.next_id (clock s') ->
  one_interval s'.
Proof.
  intros [Ho H] Hi Hr He Ha Hn. split; [apply (owned_frame s); assumption|].
  rewrite Hi, He, Ha. exact H.
Qed.

Lemma body_frame (term : string) (s : state) :
  intervals (debouncedSearch_body term s) = intervals s /\
  intervalRef (debouncedSearch_body term s) = intervalRef s /\
  isRealTimeEnabled (debouncedSearch_body term s) = isRealTimeEnabled s /\
  isUserAuthenticated (debouncedSearch_body term s) = isUserAuthenticated s /\
  clock (debouncedSearch_body term s) = clock s /\
  polling_calls (debouncedSearch_body term s) = polling_calls s.
Proof.
  unfold debouncedSearch_body. destruct (String.length term <? 2); simpl;
    repeat split; try reflexivity.
  unfold polling_calls. simpl. rewrite flat_map_app. simpl. apply app_nil_r.
Qed.

Lemma fire_frame (l : list (Timers.timer string)) (s : state) :
  let s' := fold_left (fun s t => debouncedSearch_body (Timers.targ t) s) l s in
  intervals s' = intervals s /\ intervalRef s' = intervalRef s /\
  isRealTimeEnabled s' = isRealTimeEnabled s /\
  isUserAuthenticated s' = isUserAuthenticated s /\
  clock s' = clock s /\ polling_calls s' = polling_calls s.
Proof.
  revert s. induction l as [|t l IH]; intros s; simpl; [repeat split; reflexivity|].
  destruct (IH (debouncedSearch_body (Timers.targ t) s)) as (A & B & C & D & E & F).
  destruct (body_frame (Timers.targ t) s) as (A' & B' & C' & D' & E' & F').
  simpl in *. repeat split; congruence.
Qed.

Lemma elapse_frame (dt : nat) (s : state) :
  intervals (elapse dt s) = intervals s /\ intervalRef (elapse dt s) = intervalRef s /\
  isRealTimeEnabled (elapse dt s) = isRealTimeEnabled s /\
  isUserAuthenticated (elapse dt s) = isUserAuthenticated s /\
  Timers.next_id (clock (elapse dt s)) = Timers.next_id (clock s) /\
  polling_calls (elapse dt s) = polling_calls s.
Proof.
  unfold elapse. simpl.
  match goal with |- context [fold_left ?f ?l ?x] =>
    destruct (fire_frame l x) as (A & B & C & D & E & F) end.
  simpl in *. rewrite A, B, C, D, E, F. repeat split; reflexivity.
Qed.

Lemma setSearchQuery_frame (q : string) (s : state) :
  intervals (setSearchQuery q s) = intervals s /\
  intervalRef (setSearchQuery q s) = intervalRef s /\
  isRealTimeEnabled (setSearchQuery q s) = isRealTimeEnabled s /\
  isUserAuthenticated (setSearchQuery q s) = isUserAuthenticated s /\
  Timers.next_id (clock s) <= Timers.next_id (clock (setSearchQuery q s)) /\
  polling_calls (setSearchQuery q s) = polling_calls s.
Proof.
  unfold setSearchQuery, searchQuery_effect, debouncedSearch, Timers.debounce.
  destruct (q =? searchQuery s)%string; [repeat split; reflexivity|]. simpl.
  destruct (JS.truthy q); [|repeat split; reflexivity].
  destruct (timeout s); simpl; repeat split; try reflexivity; lia.
Qed.

Lemma answer_frame (r : outcome (list Stock.t)) (s : state) :
  intervals (debouncedSearch_resume r s) = intervals s /\
  intervalRef (debouncedSearch_resume r s) = intervalRef s /\
  isRealTimeEnabled (debouncedSearch_resume r s) = isRealTimeEnabled s /\
  isUserAuthenticated (debouncedSearch_resume r s) = isUserAuthenticated s /\
  clock (debouncedSearch_resume r s) = clock s /\
  polling_calls (debouncedSearch_resume r s) = polling_calls s.
Proof. destruct r; repeat split; reflexivity. Qed.

Lemma step_one_interval (s : state) (e : event) : one_interval s -> one_interval (step s e).
Proof.
  intros H. destruct e as [dt|q|r|b|r|i r]; cbn [step].
  - destruct (elapse_frame dt s) as (A & B & C & D & E & _).
    apply (one_interval_frame s); auto; lia.
  - destruct (setSearchQuery_frame q s) as (A & B & C & D & E & _).
    apply (one_interval_frame s); auto.
  - destruct (awaitedSearches s) as [|n]; [exact H|].
    destruct (answer_frame r (set_awaitedSearches n s)) as (A & B & C & D & E & _).
    apply (one_interval_frame s); [exact H | exact A | exact B | exact C | exact D |].
    rewrite E. apply Nat.le_refl.
  - unfold setIsRealTimeEnabled. destruct (Bool.eqb b (isRealTimeEnabled s)); [exact H|].
    apply rerun_one_interval. apply (owned_frame s); [apply H|reflexivity..].
  - unfold setRefreshInterval.
    destruct (RefreshInterval_eqb r (refreshInterval s)); [exact H|].
    apply rerun_one_interval. apply (owned_frame s); [apply H|reflexivity..].
  - destruct (find (fun x => iid x =? i) (intervals s)) as [t|]; [|exact H].
    destruct (tick_intervals t r s) as (A & B & C & D & E & _).
    apply (one_interval_frame s); auto. rewrite E. lia.
Qed.

Lemma initial_one_interval (auth : bool) : one_interval (initial auth).
Proof. split; [split; [simpl; lia | left; reflexivity] | reflexivity]. Qed.

Lemma run_one_interval (es : list event) (s : state) :
  one_interval s -> one_interval (run es s).
Proof.
  revert s. induction es as [|e es IH]; intros s H; [exact H|].
  simpl. apply IH, step_one_interval, H.
Qed.

Lemma step_stays_off (s : state) (e : event) :
  one_interval s -> isRealTimeEnabled s = false -> keeps_off e = true ->
  isRealTimeEnabled (step s e) = false /\ polling_calls (step s e) = polling_calls s.
Proof.
  intros H Hoff Hk. destruct e as [dt|q|r|b|r|i r]; cbn [step].
  - destruct (elapse_frame dt s) as (_ & _ & C & _ & _ & F). split; congruence.
  - destruct (setSearchQuery_frame q s) as (_ & _ & C & _ & _ & F). split; congruence.
  - destruct (awaitedSearches s) as [|n]; [auto|].
    destruct (answer_frame r (set_awaitedSearches n s)) as (_ & _ & C & _ & _ & F).
    split; [rewrite C; exact Hoff | exact F].
  - destruct b; [discriminate|]. unfold setIsRealTimeEnabled. rewrite Hoff. simpl. auto.
  - unfold setRefreshInterval.
    destruct (RefreshInterval_eqb r (refreshInterval s)); [auto|].
    assert (Ho : owned (set_refreshInterval r s))
      by (apply (owned_frame s); [apply H|reflexivity..]).
    destruct (rerun_one_interval _ Ho) as (_ & A & _ & B).
    unfold polling_calls. rewrite A, B. auto.
  - destruct H as [_ H]. rewrite Hoff in H. rewrite (H eq_refl). simpl. auto.
Qed.

Lemma run_stays_off (es : list event) (s : state) :
  one_interval s -> isRealTimeEnabled s = false -> forallb keeps_off es = true ->
  polling_calls (run es s) = polling_calls s.
Proof.
  revert s. induction es as [|e es IH]; intros s H Hoff Hk; [reflexivity|].
  simpl in Hk. apply andb_true_iff in Hk. destruct Hk as [Hk Hks].
  destruct (step_stays_off s e H Hoff Hk) as [A B].
  simpl. rewrite IH; auto using step_one_interval.
Qed.

Lemma fire_refreshInterval (l : list (Timers.timer string)) (s : state) :
  refreshInterval (fold_left (fun s t => debouncedSearch_body (Timers.targ t) s) l s) =
  refreshInterval s.
Proof.
  revert s. induction l as [|t l IH]; intros s; [reflexivity|].
  simpl. rewrite IH. unfold debouncedSearch_body.
  destruct (String.length (Timers.targ t) <? 2); reflexivity.
Qed.

Lemma step_refreshInterval (s : state) (e : event) :
  match e with
  | SetIsRealTimeEnabled _ | SetRefreshInterval _ => True
  | _ => refreshInterval (step s e) = refreshInterval s /\
         intervals (step s e) = intervals s
  end.
Proof.
  destruct e as [dt|q|r|b|r|i r]; cbn [step]; try exact I.
  - split; [|apply elapse_frame]. unfold elapse.
    destruct (Timers.advance dt (clock s)) as [fired c].
    exact (fire_refreshInterval fired (set_clock c s)).
  - split; [|apply setSearchQuery_frame].
    unfold setSearchQuery, searchQuery_effect, debouncedSearch, Timers.debounce.
    destruct (q =? searchQuery s)%string; [reflexivity|]. cbn.
    destruct (JS.truthy q); [|reflexivity]. destruct (timeout s); reflexivity.
  - destruct (awaitedSearches s) as [|n]; [split; reflexivity|].
    destruct r; split; reflexivity.
  - destruct (find (fun x => iid x =? i) (intervals s)) as [t|]; [|split; reflexivity].
    split; [|apply tick_intervals].
    unfold tick, refreshStockData. destruct r as [resp|e]; [|reflexivity].
    destruct (response_pagination resp), (0 <? seen_updateCounter t); reflexivity.
Qed.

Lemma rerun_configured (s : state) :
  owned s ->
  configured (realTime_rerun s) /\
  refreshInterval (realTime_rerun s) = refreshInterval s.
Proof.
  intros H. unfold realTime_rerun, realTime_effect.
  pose proof (stop_owned s H) as H1.
  destruct (stop_clears s H) as (Hi & Hc & He & Ha & Hr & Hp).
  destruct (stop_clears _ H1) as (Hi2 & Hc2 & He2 & Ha2 & Hr2 & Hp2).
  destruct (isRealTimeEnabled (stopRealTimeUpdates s) &&
            isUserAuthenticated (stopRealTimeUpdates s)).
  - assert (Hrs : refreshInterval (startRealTimeUpdates (stopRealTimeUpdates s)) =
                  refreshInterval s).
    { rewrite <- Hr. unfold startRealTimeUpdates, stopRealTimeUpdates.
      destruct (intervalRef s) as [i|]; [destruct (i =? 0)|]; cbn;
        repeat break_match; reflexivity. }
    split; [|exact Hrs].
    intros t Hin. rewrite Hrs. unfold startRealTimeUpdates in Hin. cbn in Hin.
    rewrite Hi2 in Hin. destruct Hin as [<- | []]. cbn. rewrite Hr. reflexivity.
  - split; [|congruence]. intros t Hin. rewrite Hi2 in Hin. destruct Hin.
Qed.

Lemma step_configured (s : state) (e : event) :
  one_interval s -> configured s -> configured (step s e).
Proof.
  intros H Hc.
  pose proof (step_refreshInterval s e) as Hf.
  assert (Hframe : refreshInterval (step s e) = refreshInterval s /\
                    intervals (step s e) = intervals s -> configured (step s e)).
  { intros [Hr Hi] t Hin. rewrite Hr. rewrite Hi in Hin. auto. }
  destruct e as [dt|q|r|b|r|i r]; try (apply Hframe, Hf).
  - cbn [step]. unfold setIsRealTimeEnabled.
    destruct (Bool.eqb b (isRealTimeEnabled s)); [exact Hc|].
    assert (Ho : owned (set_isRealTimeEnabled b s))
      by (apply (owned_frame s); [apply H|reflexivity..]).
    apply (rerun_configured _ Ho).
  - cbn [step]. unfold setRefreshInterval.
    destruct (RefreshInterval_eqb r (refreshInterval s)); [exact Hc|].
    assert (Ho : owned (set_refreshInterval r s))
      by (apply (owned_frame s); [apply H|reflexivity..]).
    apply (rerun_configured _ Ho).
Qed.

Lemma run_configured (es : list event) (s : state) :
  one_interval s -> configured s -> configured (run es s).
Proof.
  revert s. induction es as [|e es IH]; intros s H Hc; [exact Hc|].
  simpl. apply IH; [apply step_one_interval, H | apply step_configured; assumption].
Qed.

(** Claim C5. In every state a session of the page can reach, at most one
    refresh interval is running, it is the one [intervalRef] holds and it
    has the configured period; none is running while real-time mode is
    off; switching the mode or the period leaves at most one running (the
    old one is cleared before a new one is installed); once the mode is
    off, no event other than switching it on again adds a polling
    request; and leaving the page clears the interval. *)
Theorem at_most_one_refresh_timer (auth : bool) (es : list event) :
  let s := run es (initial auth) in
  length (intervals s) <= 1 /\
  (forall t, In t (intervals s) ->
     intervalRef s = Some (iid t) /\
     period t = snd (REFRESH_INTERVALS (refreshInterval s))) /\
  (isRealTimeEnabled s = false -> intervals s = []) /\
  (forall b, intervals (step s (SetIsRealTimeEnabled b)) = [] \/
             exists t, intervals (step s (SetIsRealTimeEnabled b)) = [t]) /\
  (forall r, length (intervals (step s (SetRefreshInterval r))) <= 1) /\
  (forall es', isRealTimeEnabled s = false -> forallb keeps_off es' = true ->
               polling_calls (run es' s) = polling_calls s) /\
  intervals (unmount s) = [].
Proof.
  intros s. assert (H : one_interval s) by apply run_one_interval, initial_one_interval.
  assert (Hcfg : configured s).
  { apply run_configured; [apply initial_one_interval | intros t []]. }
  assert (Hlen : forall s0, one_interval s0 -> length (intervals s0) <= 1).
  { intros s0 [[_ [E | (t & E & _)]] _]; rewrite E; simpl; lia. }
  split; [apply Hlen, H|].
  split.
  { intros t Hin. split; [|apply Hcfg, Hin].
    destruct H as [[_ [E | (t' & E & Href & _)]] _]; rewrite E in Hin.
    - destruct Hin.
    - destruct Hin as [<- | []]. exact Href. }
  split; [intros Hoff; apply H; rewrite Hoff; reflexivity|].
  split.
  { intros b. pose proof (step_one_interval s (SetIsRealTimeEnabled b) H) as H'.
    destruct H' as [[_ [E | (t & E & _)]] _]; eauto. }
  split; [intros r; apply Hlen, step_one_interval, H|].
  split; [intros es' Hoff Hk; apply run_stays_off; assumption|].
  apply stop_clears, H.
Qed.

Lemma at_most_one_refresh_timer_witness :
  length (intervals Examples.polling) <= 1 /\
  intervals (step Examples.polling (SetIsRealTimeEnabled false)) = [].
Proof.
  pose proof (at_most_one_refresh_timer true
                [SetIsRealTimeEnabled true; SetRefreshInterval r5]) as H.
  split; [exact (proj1 H)|]. vm_compute. reflexivity.
Defined.


Lemma run_app (l1 l2 : list event) (s : state) :
  run (l1 ++ l2) s = run l2 (run l1 s).
Proof. apply fold_left_app. Qed.

Lemma elapse_idle (d : nat) (s : state) :
  Timers.pending (clock s) = [] ->
  elapse d s =
  set_clock {| Timers.now := Timers.now (clock s) + d;
               Timers.next_id := Timers.next_id (clock s);
               Timers.pending := [] |} s.
Proof. intros H. unfold elapse, Timers.advance. rewrite H. reflexivity. Qed.

Lemma elapse_early (d : nat) (s : state) (t : Timers.timer string) :
  Timers.pending (clock s) = [t] -> Timers.now (clock s) + d < Timers.due t ->
  elapse d s =
  set_clock {| Timers.now := Timers.now (clock s) + d;
               Timers.next_id := Timers.next_id (clock s);
               Timers.pending := [t] |} s.
Proof.
  intros H Hd. unfold elapse, Timers.advance. rewrite H. simpl.
  destruct (Timers.due t <=? Timers.now (clock s) + d) eqn:E;
    [apply Nat.leb_le in E; lia|]. reflexivity.
Qed.

Lemma elapse_late (w : nat) (s : state) (t : Timers.timer string) :
  Timers.pending (clock s) = [t] -> Timers.due t <= Timers.now (clock s) + w ->
  elapse w s =
  debouncedSearch_body (Timers.targ t)
    (set_clock {| Timers.now := Timers.now (clock s) + w;
                  Timers.next_id := Timers.next_id (clock s);
                  Timers.pending := [] |} s).
Proof.
  intros H Hd. unfold elapse, Timers.advance. rewrite H. simpl.
  destruct (Timers.due t <=? Timers.now (clock s) + w) eqn:E;
    [|apply Nat.leb_gt in E; lia]. reflexivity.
Qed.

Lemma search_calls_body (term : string) (s : state) :
  search_calls (debouncedSearch_body term s) =
  (search_calls s ++ if 2 <=? String.length term then [term] else [])%list.
Proof.
  unfold debouncedSearch_body.
  destruct (String.length term <? 2) eqn:E.
  - apply Nat.ltb_lt in E. destruct (2 <=? String.length term) eqn:E2;
      [apply Nat.leb_le in E2; lia|]. simpl. symmetry. apply app_nil_r.
  - apply Nat.ltb_ge in E. destruct (2 <=? String.length term) eqn:E2;
      [|apply Nat.leb_gt in E2; lia].
    unfold search_calls, add_call. simpl. rewrite flat_map_app. reflexivity.
Qed.

(** An edit to a new, non-empty query arms the debounce for it, whether a
    timeout was pending or not, provided the pending one is the one the
    closure remembers. *)
Lemma edit_arms (q : string) (s : state) :
  q <> searchQuery s -> q <> "" ->
  (Timers.pending (clock s) = [] \/
   exists i d a, timeout s = Some i /\
     Timers.pending (clock s) = [{| Timers.tid := i; Timers.due := d; Timers.targ := a |}]) ->
  armed (setSearchQuery q s) q /\ calls (setSearchQuery q s) = calls s.
Proof.
  intros Hq Hne Hp. unfold setSearchQuery.
  destruct (q =? searchQuery s)%string eqn:E; [apply String.eqb_eq in E; contradiction|].
  unfold searchQuery_effect. cbn.
  assert (Ht : JS.truthy q = true) by (apply truthy_true; exact Hne). rewrite Ht.
  unfold debouncedSearch, Timers.debounce, Timers.setTimeout, Timers.clearTimeout. cbn.
  destruct Hp as [Hp | (i & d & a & Hi & Hp)].
  - destruct (timeout s); cbn; rewrite Hp; cbn;
      (split; [split; [reflexivity | eexists; split; reflexivity] | reflexivity]).
  - rewrite Hi. cbn. rewrite Hp. cbn. rewrite Nat.eqb_refl. cbn.
    split; [split; [reflexivity | eexists; split; reflexivity] | reflexivity].
Qed.

Lemma armed_edit (d : nat) (q q' : string) (s : state) :
  armed s q -> d < 300 -> q' <> q -> q' <> "" ->
  armed (setSearchQuery q' (elapse d s)) q' /\
  calls (setSearchQuery q' (elapse d s)) = calls s.
Proof.
  intros (Hq & i & Hi & Hp) Hd Hne Hne'.
  rewrite (elapse_early d s _ Hp) by (simpl; lia).
  match goal with |- armed (setSearchQuery _ ?x) _ /\ _ =>
    destruct (edit_arms q' x) as [A B] end;
    [cbn; congruence | assumption | right; exists i; cbn; eauto |].
  split; [exact A | exact B].
Qed.

Lemma last_default (A : Type) (x : A) (l : list A) (d d' : A) :
  List.last (x :: l) d = List.last (x :: l) d'.
Proof.
  revert x. induction l as [|y l IH]; intros x; [reflexivity|].
  change (List.last (y :: l) d = List.last (y :: l) d'). apply IH.
Qed.

Lemma burst_armed (es : edits) (q : string) (s : state) :
  armed s q -> changes q es -> Forall (fun e => fst e < 300) es ->
  armed (run (edit_events es) s) (snd (List.last es (0, q))) /\
  calls (run (edit_events es) s) = calls s.
Proof.
  revert q s. induction es as [|[d q'] es IH]; intros q s Ha Hc Hr.
  - split; [exact Ha | reflexivity].
  - destruct Hc as (Hne & Hne' & Hc). inversion Hr as [|? ? Hd Hr']. subst.
    simpl in Hne, Hne', Hd, Hc.
    destruct (armed_edit d q q' s Ha Hd Hne Hne') as [Ha' Hcalls].
    destruct (IH q' _ Ha' Hc Hr') as [Ha'' Hcalls'].
    change (run (edit_events ((d, q') :: es)) s)
      with (run (edit_events es) (setSearchQuery q' (elapse d s))).
    split; [|congruence].
    destruct es as [|e es']; [exact Ha''|].
    change (List.last ((d, q') :: e :: es') (0, q)) with (List.last (e :: es') (0, q)).
    rewrite (last_default _ e es' (0, q) (0, q')). exact Ha''.
Qed.

Lemma armed_fires (w : nat) (q : string) (s : state) :
  armed s q -> 300 <= w ->
  search_calls (elapse w s) =
    (search_calls s ++ if 2 <=? String.length q then [q] else [])%list /\
  Timers.pending (clock (elapse w s)) = [] /\
  searchQuery (elapse w s) = q /\
  (String.length q < 2 -> searchResults (elapse w s) = []).
Proof.
  intros (Hq & i & Hi & Hp) Hw.
  rewrite (elapse_late w s _ Hp) by (simpl; lia). cbn [Timers.targ].
  split; [exact (search_calls_body q _)|].
  unfold debouncedSearch_body.
  destruct (String.length q <? 2) eqn:E; cbn; repeat split; auto.
  apply Nat.ltb_ge in E. lia.
Qed.

(** Claim C3, as amended. A burst of edits of the search box, each a
    non-empty input that differs from the one before and each but the
    first less than 300 ms after the one before, starting with no timeout
    pending: during the burst no search request is sent, and at its end
    the only pending timeout is the one for the final input, the earlier
    ones having been cleared; once the input has been stable for 300 ms
    that timeout has fired, and exactly one search request carrying the
    final input was sent when it has two characters or more, none
    otherwise. *)
Theorem rapid_edits_fire_one_debounced_search
    (s0 : state) (e : nat * string) (es : edits) (w : nat)
    (Hidle : Timers.pending (clock s0) = [])
    (Hchg : changes (searchQuery s0) (e :: es))
    (Hrapid : rapid 300 (e :: es))
    (Hquiet : 300 <= w) :
  let final := snd (List.last es e) in
  let s := run (edit_events (e :: es) ++ [Elapse w]) s0 in
  search_calls (run (edit_events (e :: es)) s0) = search_calls s0 /\
  armed (run (edit_events (e :: es)) s0) final /\
  search_calls s =
    (search_calls s0 ++ if 2 <=? String.length final then [final] else [])%list /\
  Timers.pending (clock s) = [] /\
  searchQuery s = final.
Proof.
  intros final s. subst s. rewrite run_app.
  destruct e as [d q]. destruct Hchg as (Hne & Hne' & Hchg). simpl in Hne, Hne', Hchg.
  change (run (edit_events ((d, q) :: es)) s0)
    with (run (edit_events es) (setSearchQuery q (elapse d s0))).
  assert (H1 : armed (setSearchQuery q (elapse d s0)) q /\
               calls (setSearchQuery q (elapse d s0)) = calls s0).
  { rewrite (elapse_idle d s0 Hidle).
    match goal with |- armed (setSearchQuery _ ?x) _ /\ _ =>
      destruct (edit_arms q x) as [A B] end; [assumption | assumption | left; reflexivity |].
    split; [exact A | exact B]. }
  destruct H1 as [Ha Hc].
  destruct (burst_armed es q _ Ha Hchg Hrapid) as [Ha' Hc'].
  assert (Hlast : snd (List.last es (0, q)) = final).
  { subst final. destruct es as [|x es]; [reflexivity|].
    rewrite (last_default _ x es (0, q) (d, q)). reflexivity. }
  rewrite Hlast in Ha'.
  destruct (armed_fires w final _ Ha' Hquiet) as (A & B & C & _).
  cbn [run fold_left step]. fold (run (edit_events es) (setSearchQuery q (elapse d s0))).
  rewrite A. unfold search_calls at 1 2 3. rewrite Hc', Hc. auto.
Qed.

Lemma rapid_edits_witness :
  search_calls
    (run (edit_events [(0, "a"); (100, "ab"); (299, "abc")] ++ [Elapse 300])
       (initial true)) = ["abc"].
Proof.
  assert (Hchg : changes (searchQuery (initial true))
                   [(0, "a"); (100, "ab"); (299, "abc")])
    by (cbn; repeat split; discriminate).
  assert (Hrapid : rapid 300 [(0, "a"); (100, "ab"); (299, "abc")])
    by (unfold rapid; cbn; repeat (constructor; [cbn; lia|]); constructor).
  assert (Hquiet : 300 <= 300) by lia.
  destruct (rapid_edits_fire_one_debounced_search (initial true) (0, "a")
              [(100, "ab"); (299, "abc")] 300 eq_refl Hchg Hrapid Hquiet)
    as (_ & _ & H & _).
  exact H.
Defined.

(** Claim C3 as stated fails: the user types ["ab"] and, 100 ms later,
    deletes the second character; after the quiet period no search
    request was sent, where the claim expects exactly one, carrying the
    final input ["a"]. *)
Lemma burst_ending_in_one_character_sends_no_search :
  let es := [(0, "ab"); (100, "a")] in
  let s := run (edit_events es ++ [Elapse 300]) (initial true) in
  rapid 300 es /\ searchQuery s = "a" /\ Timers.pending (clock s) = [] /\
  search_calls s = [] /\ search_calls s <> [snd (List.last es (0, ""))].
Proof.
  cbv zeta. split; [repeat constructor; cbn; lia|].
  repeat split; try (vm_compute; reflexivity).
  vm_compute. discriminate.
Defined.

End PageFacts.

(** ** The guard on short queries, on the page and in the dialog *)

Section ShortQueries.

(** Claim C4. For an input of fewer than two characters, the function
    behind the debounce, on the page and in the dialog, sends no request
    and empties the result list; and on the page, typing such an input
    when no timeout is pending and waiting out the quiet period sends no
    request and leaves the result list empty. *)
Theorem short_input_sends_no_search (term : string) (Hshort : String.length term < 2) :
  (forall s : Page.state,
     let s' := Page.debouncedSearch_body term s in
     Page.calls s' = Page.calls s /\ Page.searchResults s' = []) /\
  (forall s : Dialog.state,
     let s' := Dialog.debouncedSearch_body term s in
     Dialog.calls s' = Dialog.calls s /\ Dialog.searchResults s' = [] /\
     Dialog.showResults s' = false) /\
  (forall (s0 : Page.state) (w : nat),
     Timers.pending (Page.clock s0) = [] -> term <> Page.searchQuery s0 -> 300 <= w ->
     let s := Page.run [Page.SetSearchQuery term; Page.Elapse w] s0 in
     Page.calls s = Page.calls s0 /\ Page.searchResults s = [] /\
     Timers.pending (Page.clock s) = []).
Proof.
  assert (Hlt : (String.length term <? 2) = true) by (apply Nat.ltb_lt; exact Hshort).
  split; [|split].
  - intros s s'. subst s'. unfold Page.debouncedSearch_body. rewrite Hlt.
    split; reflexivity.
  - intros s s'. subst s'. unfold Dialog.debouncedSearch_body. rewrite Hlt.
    repeat split; reflexivity.
  - intros s0 w Hidle Hne Hw s. subst s. cbn [Page.run fold_left Page.step].
    destruct (String.eqb_spec term "") as [-> | Hterm].
    + assert (Hx : Page.setSearchQuery "" s0 =
                   Page.set_searchResults [] (Page.set_searchQuery "" s0)).
      { unfold Page.setSearchQuery.
        destruct ("" =? Page.searchQuery s0)%string eqn:E;
          [apply String.eqb_eq in E; contradiction | reflexivity]. }
      rewrite Hx, elapse_idle by exact Hidle. repeat split; reflexivity.
    + destruct (edit_arms term s0 Hne Hterm (or_introl Hidle)) as [Harmed Hcalls].
      destruct Harmed as (_ & i & _ & Hp).
      rewrite (elapse_late w _ _ Hp) by (simpl; lia). cbn [Timers.targ].
      unfold Page.debouncedSearch_body. rewrite Hlt. cbn.
      repeat split; [exact Hcalls | reflexivity..].
Qed.

Lemma short_input_witness :
  let s := Page.run [Page.SetSearchQuery "a"; Page.Elapse 300] (Page.initial true) in
  String.length "a" < 2 /\ Page.calls s = [] /\ Page.searchResults s = [].
Proof.
  cbv zeta. assert (Hshort : String.length "a" < 2) by (cbn; lia).
  split; [exact Hshort|].
  destruct (short_input_sends_no_search "a" Hshort) as (_ & _ & H).
  destruct (H (Page.initial true) 300 eq_refl) as (A & B & _);
    [discriminate | lia |].
  split; [exact A | exact B].
Defined.

End ShortQueries.

(** ** The tip form dialog *)

Section DialogFacts.

Import TipSchema Dialog.

Lemma changed_same (A : Type) `{EqDecision A} (a : A) : changed a a = false.
Proof. unfold changed. rewrite bool_decide_eq_true_2; reflexivity. Qed.

Lemma changed_eq (A : Type) `{EqDecision A} (a b : A) : a = b -> changed a b = false.
Proof. intros ->. apply changed_same. Qed.

Lemma changed_neq (A : Type) `{EqDecision A} (a b : A) : a <> b -> changed a b = true.
Proof. intros H. unfold changed. rewrite bool_decide_eq_false_2; auto. Qed.

Lemma commit_quiet (prev r : state) : deps prev = deps r -> commit prev r = r.
Proof.
  unfold deps. intros H. injection H as H1 H2 H3 H4 H5 H6 H7 H8.
  unfold commit. rewrite H1, H2, H3, H4, H5, H6, H7, H8, !changed_same. reflexivity.
Qed.

Lemma masked_autoCalcTarget (r s : state) : masked (autoCalcTarget_effect r s) = masked s.
Proof.
  unfold autoCalcTarget_effect.
  destruct (selectedStockDetails r); [|reflexivity].
  destruct (_ && _); [|reflexivity]. destruct (_ && _); reflexivity.
Qed.

Lemma masked_autoCalcExit (r s : state) : masked (autoCalcExit_effect r s) = masked s.
Proof.
  unfold autoCalcExit_effect.
  destruct (selectedStockDetails r); [|reflexivity].
  destruct (_ && _); [|reflexivity]. destruct (_ && _); reflexivity.
Qed.

Lemma masked_searchTerm (r s : state) : masked (searchTerm_effect r s) = masked s.
Proof.
  unfold searchTerm_effect, debouncedSearch, Timers.debounce.
  destruct (timeout s); reflexivity.
Qed.

Lemma open_effect_closed (r s : state) : open r = false -> open_effect r s = s.
Proof. unfold open_effect. intros ->. reflexivity. Qed.

Lemma deps_masked (s s' : state) : masked s = masked s' -> deps s = deps s'.
Proof.
  intros H. change (deps (masked s) = deps s'). rewrite H. reflexivity.
Qed.

(** When the effect on [open] has nothing to do, the effects of a render
    write the percentage fields and the timers only. *)
Lemma commit_masked (prev r : state) :
  (open prev = open r /\ initialData prev = initialData r) \/ open r = false ->
  masked (commit prev r) = masked r.
Proof.
  intros H. unfold commit.
  assert (Ho : forall s, (if changed (open prev) (open r) ||
                             changed (initialData prev) (initialData r)
                          then open_effect r s else s) = s).
  { intros s. destruct H as [[-> ->] | H].
    - rewrite !changed_same. reflexivity.
    - rewrite (open_effect_closed _ _ H). destruct (_ || _); reflexivity. }
  rewrite Ho.
  destruct (changed (searchTerm prev) (searchTerm r)); rewrite ?masked_searchTerm;
  destruct (_ || _ || _); rewrite ?masked_autoCalcExit;
  destruct (_ || _ || _); rewrite ?masked_autoCalcTarget; reflexivity.
Qed.

Lemma settle_quiet (n : nat) (prev r : state) : deps prev = deps r -> settle n prev r = r.
Proof.
  revert prev r. induction n as [|n IH]; intros prev r H; [reflexivity|].
  simpl. rewrite (commit_quiet _ _ H). apply IH. reflexivity.
Qed.

(** Then one round of effects is all there is. *)
Lemma settle_once (n : nat) (prev r : state) :
  (open prev = open r /\ initialData prev = initialData r) \/ open r = false ->
  settle (S n) prev r = commit prev r.
Proof.
  intros H. simpl. apply settle_quiet, deps_masked. symmetry. apply commit_masked, H.
Qed.

(** Without a selected stock the percentage fields are left alone too. *)
Lemma commit_values_no_stock (prev r : state) :
  (open prev = open r /\ initialData prev = initialData r) \/ open r = false ->
  selectedStockDetails r = None ->
  values (commit prev r) = values r.
Proof.
  intros H Hs. unfold commit, autoCalcTarget_effect, autoCalcExit_effect. rewrite Hs.
  assert (Ho : forall s, (if changed (open prev) (open r) ||
                             changed (initialData prev) (initialData r)
                          then open_effect r s else s) = s).
  { intros s. destruct H as [[-> ->] | H].
    - rewrite !changed_same. reflexivity.
    - rewrite (open_effect_closed _ _ H). destruct (_ || _); reflexivity. }
  rewrite Ho.
  destruct (changed (searchTerm prev) (searchTerm r));
    unfold searchTerm_effect, debouncedSearch, Timers.debounce;
    destruct (_ || _ || _); destruct (_ || _ || _); try destruct (timeout r); reflexivity.
Qed.


(** No effect writes the props. *)
Lemma commit_props (prev r : state) :
  open (commit prev r) = open r /\ initialData (commit prev r) = initialData r.
Proof.
  assert (H1 : forall x, open (autoCalcTarget_effect r x) = open x /\
                         initialData (autoCalcTarget_effect r x) = initialData x).
  { intros x. unfold autoCalcTarget_effect. repeat break_match; split; reflexivity. }
  assert (H2 : forall x, open (autoCalcExit_effect r x) = open x /\
                         initialData (autoCalcExit_effect r x) = initialData x).
  { intros x. unfold autoCalcExit_effect. repeat break_match; split; reflexivity. }
  assert (H3 : forall x, open (open_effect r x) = open x /\
                         initialData (open_effect r x) = initialData x).
  { intros x. unfold open_effect, fetchStockDetails.
    repeat break_match; split; reflexivity. }
  assert (H4 : forall x, open (searchTerm_effect r x) = open x /\
                         initialData (searchTerm_effect r x) = initialData x).
  { intros x. unfold searchTerm_effect, debouncedSearch, Timers.debounce.
    repeat break_match; split; reflexivity. }
  unfold commit.
  destruct (changed (searchTerm prev) (searchTerm r));
  destruct (changed (open prev) (open r) || _);
  destruct (_ || _ || _); destruct (_ || _ || _);
    rewrite ?(proj1 (H4 _)), ?(proj2 (H4 _)), ?(proj1 (H3 _)), ?(proj2 (H3 _)),
      ?(proj1 (H2 _)), ?(proj2 (H2 _)), ?(proj1 (H1 _)), ?(proj2 (H1 _));
    split; reflexivity.
Qed.

(** Two rounds of effects settle the dialog after any handler: further
    rounds change nothing. *)
Lemma settle_two_rounds (n : nat) (prev r : state) :
  settle (2 + n) prev r = settle 2 prev r.
Proof.
  change (settle n (commit prev r) (commit r (commit prev r)) =
          commit r (commit prev r)).
  apply settle_quiet, deps_masked. symmetry. apply commit_masked. left.
  destruct (commit_props prev r) as [A B]. split; congruence.
Qed.

Lemma step_same_dialog (s : state) (e : event) :
  (open s = open (handler e s) /\ initialData s = initialData (handler e s)) \/
    open (handler e s) = false ->
  step s e = commit s (handler e s).
Proof. intros H. unfold step, after. apply settle_once, H. Qed.

(** Entering a target price with auto-calculation on. *)
Lemma input_targetPrice (s : state) (stock : Stock.t) (v : string) :
  selectedStockDetails s = Some stock -> isAutoCalcTarget s = true ->
  showTargetFields s = true -> targetPrice (values s) <> Some v -> v <> "" ->
  step s (Input f_targetPrice v) =
  if JS.gt (JS.parseFloat (Stock.currentPrice stock)) zero && JS.gt (JS.parseFloat v) zero
  then setValue (set_targetPercentage
                   (Some (percentage (JS.parseFloat v)
                            (JS.parseFloat (Stock.currentPrice stock)))))
         (setValue (set_targetPrice (Some v)) s)
  else setValue (set_targetPrice (Some v)) s.
Proof.
  intros Hsel Hauto Hshow Hchg Hne.
  assert (Hh : handler (Input f_targetPrice v) s = setValue (set_targetPrice (Some v)) s).
  { cbn [handler editable]. rewrite Hshow. reflexivity. }
  rewrite step_same_dialog by (rewrite Hh; left; split; reflexivity).
  rewrite Hh. unfold commit. cbn.
  rewrite (changed_neq _ _ _ Hchg), !changed_same. cbn.
  unfold autoCalcTarget_effect. cbn. rewrite Hsel, Hauto. cbn.
  assert (Ht : JS.truthy v = true).
  { unfold JS.truthy. apply negb_true_iff, String.eqb_neq, Hne. }
  rewrite Ht. reflexivity.
Qed.

Lemma input_exitPrice (s : state) (stock : Stock.t) (v : string) :
  selectedStockDetails s = Some stock -> isAutoCalcExit s = true ->
  showExitFields s = true -> exitPrice (values s) <> Some v -> v <> "" ->
  step s (Input f_exitPrice v) =
  if JS.gt (JS.parseFloat (Stock.currentPrice stock)) zero && JS.gt (JS.parseFloat v) zero
  then setValue (set_exitStatusPercentage
                   (Some (percentage (JS.parseFloat v)
                            (JS.parseFloat (Stock.currentPrice stock)))))
         (setValue (set_exitPrice (Some v)) s)
  else setValue (set_exitPrice (Some v)) s.
Proof.
  intros Hsel Hauto Hshow Hchg Hne.
  assert (Hh : handler (Input f_exitPrice v) s = setValue (set_exitPrice (Some v)) s).
  { cbn [handler editable]. rewrite Hshow. reflexivity. }
  rewrite step_same_dialog by (rewrite Hh; left; split; reflexivity).
  rewrite Hh. unfold commit. cbn.
  rewrite (changed_neq _ _ _ Hchg), !changed_same. cbn.
  unfold autoCalcExit_effect. cbn. rewrite Hsel, Hauto. cbn.
  assert (Ht : JS.truthy v = true).
  { unfold JS.truthy. apply negb_true_iff, String.eqb_neq, Hne. }
  rewrite Ht. reflexivity.
Qed.

(** Claim C2, as amended. With a stock selected, entering a new non-empty
    target price while its auto-calculation is on (and likewise an exit
    price) stores the price; when both the stock's current price and the
    entered price parse to numbers above zero, the percentage field
    becomes [((price - current) / current * 100).toFixed(2)] followed by
    the percent sign; when either of them does not, the percentage field
    is left as it was. *)
Theorem autoCalc_percentage_of_entered_price
    (s : state) (stock : Stock.t) (v : string)
    (Hsel : selectedStockDetails s = Some stock) (Hv : v <> "") :
  let reference := JS.parseFloat (Stock.currentPrice stock) in
  let price := JS.parseFloat v in
  (isAutoCalcTarget s = true -> showTargetFields s = true ->
   targetPrice (values s) <> Some v ->
   let s' := step s (Input f_targetPrice v) in
   targetPrice (values s') = Some v /\
   (JS.gt reference zero = true -> JS.gt price zero = true ->
    targetPercentage (values s') = Some (percentage price reference)) /\
   (JS.gt reference zero = false \/ JS.gt price zero = false ->
    targetPercentage (values s') = targetPercentage (values s))) /\
  (isAutoCalcExit s = true -> showExitFields s = true ->
   exitPrice (values s) <> Some v ->
   let s' := step s (Input f_exitPrice v) in
   exitPrice (values s') = Some v /\
   (JS.gt reference zero = true -> JS.gt price zero = true ->
    exitStatusPercentage (values s') = Some (percentage price reference)) /\
   (JS.gt reference zero = false \/ JS.gt price zero = false ->
    exitStatusPercentage (values s') = exitStatusPercentage (values s))).
Proof.
  intros reference price. split.
  - intros Hauto Hshow Hchg s'. subst s'.
    rewrite (input_targetPrice s stock v Hsel Hauto Hshow Hchg Hv).
    fold reference price.
    destruct (JS.gt reference zero), (JS.gt price zero); cbn;
      (split; [reflexivity | split; [intros; congruence | intros [?|?]; congruence]]).
  - intros Hauto Hshow Hchg s'. subst s'.
    rewrite (input_exitPrice s stock v Hsel Hauto Hshow Hchg Hv).
    fold reference price.
    destruct (JS.gt reference zero), (JS.gt price zero); cbn;
      (split; [reflexivity | split; [intros; congruence | intros [?|?]; congruence]]).
Qed.

Lemma autoCalc_percentage_witness :
  selectedStockDetails Examples.tcs_picked = Some Examples.tcs /\
  Stock.currentPrice Examples.tcs = "150.00" /\
  targetPercentage (values (step Examples.tcs_picked (Input f_targetPrice "180"))) =
    Some "20.00%".
Proof.
  split; [vm_compute; reflexivity|]. split; [reflexivity|].
  assert (Hsel : selectedStockDetails Examples.tcs_picked = Some Examples.tcs)
    by (vm_compute; reflexivity).
  assert (Hv : "180" <> "") by discriminate.
  destruct (autoCalc_percentage_of_entered_price Examples.tcs_picked Examples.tcs
              "180" Hsel Hv) as [Htarget _].
  assert (Hauto : isAutoCalcTarget Examples.tcs_picked = true) by (vm_compute; reflexivity).
  assert (Hshow : showTargetFields Examples.tcs_picked = true) by (vm_compute; reflexivity).
  assert (Hchg : targetPrice (values Examples.tcs_picked) <> Some "180")
    by (vm_compute; discriminate).
  destruct (Htarget Hauto Hshow Hchg) as (_ & Hset & _).
  rewrite Hset; vm_compute; reflexivity.
Defined.

(** Claim C2 as stated fails: TCS is selected at 150.00, auto-calculation
    is on and the target price 0 is entered; the claim expects the
    percentage -100.00%, the field keeps the 20.00% it had. *)
Lemma zero_target_price_leaves_percentage :
  let s := Examples.tcs_target_entered in
  let s' := step s (Input f_targetPrice "0") in
  isAutoCalcTarget s = true /\ selectedStockDetails s = Some Examples.tcs /\
  JS.gt (JS.parseFloat (Stock.currentPrice Examples.tcs)) zero = true /\
  targetPercentage (values s) = Some "20.00%" /\
  targetPrice (values s') = Some "0" /\
  targetPercentage (values s') = Some "20.00%" /\
  percentage (JS.parseFloat "0") (JS.parseFloat (Stock.currentPrice Examples.tcs)) =
    "-100.00%".
Proof. cbv zeta. repeat split; vm_compute; reflexivity. Defined.


(** What two states that differ by percentage fields and timers share. *)
Lemma masked_fields (a b : state) :
  masked a = masked b ->
  toasts a = toasts b /\ errors a = errors b /\ calls a = calls b /\
  selectedStockDetails a = selectedStockDetails b /\
  stockDetailsCache a = stockDetailsCache b /\
  open a = open b /\ searchTerm a = searchTerm b /\
  searchResults a = searchResults b /\ showResults a = showResults b /\
  defaultValues a = defaultValues b /\
  targetPrice (values a) = targetPrice (values b) /\
  exitPrice (values a) = exitPrice (values b) /\
  awaitedDetails a = awaitedDetails b.
Proof.
  intros H.
  repeat split;
    [ exact (f_equal toasts H) | exact (f_equal errors H) | exact (f_equal calls H)
    | exact (f_equal selectedStockDetails H) | exact (f_equal stockDetailsCache H)
    | exact (f_equal open H) | exact (f_equal searchTerm H)
    | exact (f_equal searchResults H) | exact (f_equal showResults H)
    | exact (f_equal defaultValues H)
    | exact (f_equal (fun s => targetPrice (values s)) H)
    | exact (f_equal (fun s => exitPrice (values s)) H)
    | exact (f_equal awaitedDetails H) ].
Qed.

Lemma or_else_empty (k : string) : JS.or_else (Some k) "" = k.
Proof.
  unfold JS.or_else, JS.truthy. destruct (k =? "")%string eqn:E; [|reflexivity].
  apply String.eqb_eq in E. subst k. reflexivity.
Qed.

(** Claim C9. When the awaited lookup of a tip's stock fails, no toast
    and no form error appears; the selected stock becomes the fallback
    record, whose current price is the tip's own target price, or "0"
    when the tip has none; from then on, every percentage auto-calculated
    on entering a positive target or exit price is taken relative to that
    price, and none is calculated when the tip has no target price. *)
Theorem failed_lookup_installs_fallback_priced_at_target
    (s : state) (d : Tip.t) (e : js_error)
    (Hwait : d ∈ awaitedDetails s) :
  let s' := step s (DetailsAnswer d (rejected e)) in
  let reference := JS.parseFloat (JS.or_else (Tip.targetPrice d) "0") in
  toasts s' = toasts s /\ errors s' = errors s /\
  selectedStockDetails s' = Some (fallbackStock d) /\
  Stock.currentPrice (fallbackStock d) = JS.or_else (Tip.targetPrice d) "0" /\
  (JS.truthy_opt (Tip.targetPrice d) = false -> JS.gt reference zero = false) /\
  (forall (t : state) (v : string),
     selectedStockDetails t = selectedStockDetails s' -> v <> "" ->
     JS.gt (JS.parseFloat v) zero = true ->
     (isAutoCalcTarget t = true -> showTargetFields t = true ->
      targetPrice (values t) <> Some v ->
      targetPercentage (values (step t (Input f_targetPrice v))) =
        if JS.gt reference zero
        then Some (percentage (JS.parseFloat v) reference)
        else targetPercentage (values t)) /\
     (isAutoCalcExit t = true -> showExitFields t = true ->
      exitPrice (values t) <> Some v ->
      exitStatusPercentage (values (step t (Input f_exitPrice v))) =
        if JS.gt reference zero
        then Some (percentage (JS.parseFloat v) reference)
        else exitStatusPercentage (values t))).
Proof.
  intros s' reference.
  assert (Hh : handler (DetailsAnswer d (rejected e)) s =
               set_selectedStockDetails (Some (fallbackStock d))
                 (set_awaitedDetails (remove_first d (awaitedDetails s)) s)).
  { cbn [handler]. rewrite bool_decide_eq_true_2 by exact Hwait. reflexivity. }
  assert (Hs' : masked s' = masked (handler (DetailsAnswer d (rejected e)) s)).
  { subst s'. rewrite step_same_dialog by (rewrite Hh; left; split; reflexivity).
    apply commit_masked. rewrite Hh. left. split; reflexivity. }
  rewrite Hh in Hs'.
  destruct (masked_fields _ _ Hs') as (A & B & _ & C & _).
  split; [exact A|]. split; [exact B|]. split; [exact C|]. split; [reflexivity|].
  split.
  - intros Hf. subst reference. unfold JS.or_else.
    destruct (Tip.targetPrice d) as [p|]; [|reflexivity].
    simpl in Hf. rewrite Hf. reflexivity.
  - intros t v Ht Hv Hpos. rewrite C in Ht. split.
    + intros Hauto Hshow Hchg.
      rewrite (input_targetPrice t _ v Ht Hauto Hshow Hchg Hv).
      change (JS.parseFloat (Stock.currentPrice (fallbackStock d))) with reference.
      rewrite Hpos, andb_true_r. destruct (JS.gt reference zero); reflexivity.
    + intros Hauto Hshow Hchg.
      rewrite (input_exitPrice t _ v Ht Hauto Hshow Hchg Hv).
      change (JS.parseFloat (Stock.currentPrice (fallbackStock d))) with reference.
      rewrite Hpos, andb_true_r. destruct (JS.gt reference zero); reflexivity.
Qed.

Lemma failed_lookup_witness :
  let s' := step Examples.wipro_awaited
              (DetailsAnswer Examples.wipro_tip (rejected thrown_value)) in
  awaitedDetails Examples.wipro_awaited = [Examples.wipro_tip] /\
  toasts s' = [] /\
  option_map Stock.currentPrice (selectedStockDetails s') = Some "180" /\
  targetPercentage (values (step s' (Input f_targetPrice "200"))) = Some "11.11%".
Proof.
  cbv zeta. split; [vm_compute; reflexivity|].
  assert (Hwait : Examples.wipro_tip ∈ awaitedDetails Examples.wipro_awaited)
    by (vm_compute; apply list_elem_of_here).
  destruct (failed_lookup_installs_fallback_priced_at_target Examples.wipro_awaited
              Examples.wipro_tip thrown_value Hwait) as (A & _ & C & _).
  split; [rewrite A; vm_compute; reflexivity|].
  split; [rewrite C; reflexivity|].
  vm_compute. reflexivity.
Defined.

(** *** The cache *)

Lemma cache_autoCalcTarget (r s : state) :
  stockDetailsCache (autoCalcTarget_effect r s) = stockDetailsCache s.
Proof. apply (masked_fields _ _ (masked_autoCalcTarget r s)). Qed.

Lemma cache_autoCalcExit (r s : state) :
  stockDetailsCache (autoCalcExit_effect r s) = stockDetailsCache s.
Proof. apply (masked_fields _ _ (masked_autoCalcExit r s)). Qed.

Lemma cache_searchTerm (r s : state) :
  stockDetailsCache (searchTerm_effect r s) = stockDetailsCache s.
Proof. apply (masked_fields _ _ (masked_searchTerm r s)). Qed.

Lemma cache_open_effect (r s : state) :
  stockDetailsCache (open_effect r s) = stockDetailsCache s.
Proof.
  unfold open_effect, fetchStockDetails.
  destruct (open r); [|reflexivity].
  destruct (initialData r) as [d|]; [|reflexivity].
  destruct (JS.truthy_opt (Tip.stockId d)); [|reflexivity].
  destruct (stockDetailsCache s !! _); reflexivity.
Qed.

Lemma commit_cache (prev r : state) :
  stockDetailsCache (commit prev r) = stockDetailsCache r.
Proof.
  unfold commit.
  destruct (changed (searchTerm prev) (searchTerm r)); rewrite ?cache_searchTerm;
  destruct (changed (open prev) (open r) || _); rewrite ?cache_open_effect;
  destruct (_ || _ || _); rewrite ?cache_autoCalcExit;
  destruct (_ || _ || _); rewrite ?cache_autoCalcTarget; reflexivity.
Qed.

Lemma settle_cache (n : nat) (prev r : state) :
  stockDetailsCache (settle n prev r) = stockDetailsCache r.
Proof.
  revert prev r. induction n as [|n IH]; intros prev r; [reflexivity|].
  simpl. rewrite IH. apply commit_cache.
Qed.

Lemma step_cache (s : state) (e : event) :
  stockDetailsCache (step s e) = stockDetailsCache (handler e s).
Proof. apply settle_cache. Qed.

Lemma cache_body (term : string) (s : state) :
  stockDetailsCache (debouncedSearch_body term s) = stockDetailsCache s /\
  awaitedDetails (debouncedSearch_body term s) = awaitedDetails s.
Proof. unfold debouncedSearch_body. destruct (_ <? _); split; reflexivity. Qed.

Lemma cache_elapse (dt : nat) (s : state) :
  stockDetailsCache (elapse dt s) = stockDetailsCache s /\
  awaitedDetails (elapse dt s) = awaitedDetails s.
Proof.
  unfold elapse. destruct (Timers.advance dt (clock s)) as [fired c].
  change (stockDetailsCache s) with (stockDetailsCache (set_clock c s)).
  change (awaitedDetails s) with (awaitedDetails (set_clock c s)).
  generalize (set_clock c s). induction fired as [|t l IH]; intros x; [split; reflexivity|].
  simpl. destruct (IH (debouncedSearch_body (Timers.targ t) x)) as [A B].
  destruct (cache_body (Timers.targ t) x) as [A' B']. split; congruence.
Qed.

Lemma cache_select (stock : Stock.t) (s : state) :
  stockDetailsCache (handleStockSelect stock s) =
  (let k := JS.or_str (Stock._id stock) (JS.or_else (Stock.id stock) "") in
   if JS.truthy k then <[k := stock]> (stockDetailsCache s) else stockDetailsCache s) /\
  awaitedDetails (handleStockSelect stock s) = awaitedDetails s.
Proof.
  unfold handleStockSelect. cbn.
  destruct (JS.truthy (JS.or_str _ _)); cbn;
    match goal with |- context [if ?b then _ else _] => destruct b end; split; reflexivity.
Qed.

Lemma cache_submit (r : outcome unit) (s : state) :
  stockDetailsCache (handleSubmit r s) = stockDetailsCache s /\
  awaitedDetails (handleSubmit r s) = awaitedDetails s.
Proof.
  unfold handleSubmit, onValidSubmit, submit_failed, submit_succeeded.
  destruct (tipSchema (values s)); [|split; reflexivity]. cbn.
  repeat break_match; split; reflexivity.
Qed.

Lemma remove_first_subset (d x : Tip.t) (l : list Tip.t) :
  x ∈ remove_first d l -> x ∈ l.
Proof.
  induction l as [|y l IH]; simpl; [auto|].
  destruct (bool_decide (y = d)).
  - intros H. apply elem_of_cons. auto.
  - intros H. apply elem_of_cons in H. apply elem_of_cons. destruct H; auto.
Qed.

(** A handler keeps the cache, or puts one record under a key that is
    non-empty or the stock id of an awaited lookup; and it starts no
    lookup. *)
Lemma handler_cache (e : event) (s : state) :
  (stockDetailsCache (handler e s) = stockDetailsCache s \/
   exists k stock,
     stockDetailsCache (handler e s) = <[k := stock]> (stockDetailsCache s) /\
     (k <> "" \/ exists d, d ∈ awaitedDetails s /\ JS.or_else (Tip.stockId d) "" = k)) /\
  (forall d, d ∈ awaitedDetails (handler e s) -> d ∈ awaitedDetails s).
Proof.
  assert (Hsel : forall stock,
    (stockDetailsCache (handleStockSelect stock s) = stockDetailsCache s \/
     exists k stock0,
       stockDetailsCache (handleStockSelect stock s) = <[k := stock0]> (stockDetailsCache s) /\
       (k <> "" \/ exists d, d ∈ awaitedDetails s /\ JS.or_else (Tip.stockId d) "" = k)) /\
    (forall d, d ∈ awaitedDetails (handleStockSelect stock s) -> d ∈ awaitedDetails s)).
  { intros stock. destruct (cache_select stock s) as [A B]. rewrite A, B. cbn.
    split; [|auto].
    destruct (JS.truthy _) eqn:E; [|left; reflexivity].
    right. eexists _, stock. split; [reflexivity|]. left. apply truthy_true, E. }
  destruct e; cbn [handler]; try (split; [left; reflexivity | auto]).
  - destruct (cache_elapse dt s) as [A B]. rewrite A, B. auto.
  - destruct (editable f s); auto.
  - destruct (showTargetFields s); auto.
  - destruct (showExitFields s); auto.
  - destruct (selectedStockDetails s); auto.
  - destruct (awaitedSearches s); [auto|]. destruct r; auto.
  - destruct (bool_decide (d ∈ awaitedDetails s)) eqn:E; [|auto].
    apply bool_decide_eq_true in E.
    destruct r as [stock|e]; cbn.
    + split; [|intros x; apply remove_first_subset].
      right. exists (JS.or_else (Tip.stockId d) ""), stock. split; [reflexivity|].
      right. exists d. auto.
    + split; [left; reflexivity | intros x; apply remove_first_subset].
  - destruct (selectedStockDetails s); [auto|].
    destruct (showResults s); [|auto].
    destruct (nth_error (searchResults s) i) as [stock|]; [|auto]. apply Hsel.
  - destruct (selectedStockDetails s); [|auto]. destruct (initialData s); auto.
  - destruct (selectedStockDetails s); [auto|].
    unfold handleKeyDown.
    destruct (negb (showResults s) || _); [auto|].
    destruct k; auto.
    + destruct (_ <? _)%Z; auto.
    + destruct (_ <? _)%Z; auto.
    + destruct (_ <=? _)%Z; [|auto].
      destruct (nth_error _ _) as [stock|]; [|auto]. apply Hsel.
  - destruct (cache_submit r s) as [A B]. rewrite A, B. auto.
Qed.

Lemma step_keeps_entries (s : state) (e : event) (k : string) :
  is_Some (stockDetailsCache s !! k) -> is_Some (stockDetailsCache (step s e) !! k).
Proof.
  intros H. rewrite step_cache.
  destruct (handler_cache e s) as [[-> | (k' & stock & -> & _)] _]; [exact H|].
  rewrite lookup_insert. destruct (decide (k' = k)); [eexists; reflexivity | exact H].
Qed.

Lemma awaited_open_effect (r s : state) (d : Tip.t) :
  d ∈ awaitedDetails (open_effect r s) ->
  d ∈ awaitedDetails s \/ JS.truthy_opt (Tip.stockId d) = true.
Proof.
  unfold open_effect, fetchStockDetails.
  destruct (open r); [|auto].
  destruct (initialData r) as [d'|]; [|auto].
  destruct (JS.truthy_opt (Tip.stockId d')) eqn:E; [|auto].
  destruct (stockDetailsCache s !! _); [auto|]. cbn.
  intros H. apply elem_of_app in H. destruct H as [H|H]; [auto|].
  apply list_elem_of_singleton in H. subst d'. auto.
Qed.

Lemma awaited_commit (prev r : state) (d : Tip.t) :
  d ∈ awaitedDetails (commit prev r) ->
  d ∈ awaitedDetails r \/ JS.truthy_opt (Tip.stockId d) = true.
Proof.
  assert (H1 : forall x, awaitedDetails (autoCalcTarget_effect r x) = awaitedDetails x)
    by (intros x; apply (masked_fields _ _ (masked_autoCalcTarget r x))).
  assert (H2 : forall x, awaitedDetails (autoCalcExit_effect r x) = awaitedDetails x)
    by (intros x; apply (masked_fields _ _ (masked_autoCalcExit r x))).
  assert (H4 : forall x, awaitedDetails (searchTerm_effect r x) = awaitedDetails x)
    by (intros x; apply (masked_fields _ _ (masked_searchTerm r x))).
  unfold commit.
  destruct (changed (searchTerm prev) (searchTerm r)); rewrite ?H4;
  destruct (changed (open prev) (open r) || _);
  destruct (_ || _ || _); destruct (_ || _ || _);
    intros H; try apply awaited_open_effect in H;
    rewrite ?H2, ?H1 in H; auto.
Qed.

Lemma settle_sane (n : nat) (prev r : state) : cache_sane r -> cache_sane (settle n prev r).
Proof.
  revert prev r. induction n as [|n IH]; intros prev r H; [exact H|].
  simpl. apply IH. destruct H as [Hc Ha]. split.
  - rewrite commit_cache. exact Hc.
  - intros d Hd. apply awaited_commit in Hd. destruct Hd; auto.
Qed.

Lemma step_sane (s : state) (e : event) : cache_sane s -> cache_sane (step s e).
Proof.
  intros [Hc Ha]. apply settle_sane.
  destruct (handler_cache e s) as [Hcache Haw]. split; [|auto].
  destruct Hcache as [-> | (k & stock & -> & Hk)]; [exact Hc|].
  rewrite lookup_insert_ne; [exact Hc|].
  destruct Hk as [Hk | (d & Hd & <-)]; [exact Hk|].
  specialize (Ha d Hd). unfold JS.truthy_opt in Ha. unfold JS.or_else.
  destruct (Tip.stockId d) as [x|]; [|discriminate]. rewrite Ha.
  apply truthy_true, Ha.
Qed.

Lemma initial_sane : cache_sane (initial ∅).
Proof.
  split; [reflexivity|]. intros d H. cbn in H. apply elem_of_nil in H. destruct H.
Qed.

Lemma run_sane (es : list event) (s : state) : cache_sane s -> cache_sane (run es s).
Proof.
  revert s. induction es as [|e es IH]; intros s H; [exact H|].
  simpl. apply IH, step_sane, H.
Qed.

(** Claim C8. In every state a session of the dialog can reach, starting
    from an empty cache: opening the dialog (or passing it another tip)
    for a tip whose stock id is in the cache sends no request and selects
    the cached record;
    the answer to an awaited lookup is cached under the tip's stock id;
    a stock picked from the results is cached under its id (when it has
    one); and no event removes a key from the cache. *)
Theorem cache_is_consulted_first_and_never_shrinks (es : list event) :
  let s := run es (initial ∅) in
  (forall (d : Tip.t) (k : string) (cached : Stock.t),
     open s = false \/ initialData s <> Some d ->
     Tip.stockId d = Some k -> stockDetailsCache s !! k = Some cached ->
     let s' := step s (Open (Some d)) in
     calls s' = calls s /\ selectedStockDetails s' = Some cached) /\
  (forall (d : Tip.t) (k : string) (stock : Stock.t),
     d ∈ awaitedDetails s -> Tip.stockId d = Some k ->
     stockDetailsCache (step s (DetailsAnswer d (resolved stock))) !! k = Some stock) /\
  (forall (i : nat) (stock : Stock.t),
     selectedStockDetails s = None -> showResults s = true ->
     nth_error (searchResults s) i = Some stock ->
     let k := JS.or_str (Stock._id stock) (JS.or_else (Stock.id stock) "") in
     k <> "" -> stockDetailsCache (step s (ClickResult i)) !! k = Some stock) /\
  (forall (e : event) (k : string),
     is_Some (stockDetailsCache s !! k) ->
     is_Some (stockDetailsCache (step s e) !! k)).
Proof.
  intros s. assert (Hsane : cache_sane s) by apply run_sane, initial_sane.
  split; [|split; [|split]].
  - intros d k cached Hopen Hid Hhit s'.
    assert (Hrun : changed (open s) true || changed (initialData s) (Some d) = true).
    { destruct Hopen as [-> | Hne]; [reflexivity|].
      rewrite (changed_neq _ _ _ Hne). apply orb_true_r. }
    assert (Hk : JS.truthy k = true).
    { apply truthy_true. intros ->. destruct Hsane as [Hn _]. congruence. }
    set (r := set_initialData (Some d) (set_open true s)).
    set (s1 := reset_to (values_of_tip d) (set_selectedStockDetails (Some cached) r)).
    assert (H1 : commit s r = s1).
    { unfold commit. cbn. rewrite !changed_same, Hrun. cbn.
      unfold open_effect. cbn. rewrite Hid. cbn. rewrite Hk.
      unfold fetchStockDetails. cbn. rewrite Hhit. reflexivity. }
    assert (H2 : s' = commit r s1).
    { subst s'. unfold step, after. change (handler (Open (Some d)) s) with r.
      change (settle 3 s r) with (settle 2 r (commit s r)). rewrite H1.
      apply settle_once. left. split; reflexivity. }
    assert (H3 : masked s' = masked s1).
    { rewrite H2. apply commit_masked. left. split; reflexivity. }
    destruct (masked_fields _ _ H3) as (_ & _ & A & B & _). split; [exact A | exact B].
  - intros d k stock Hd Hid. rewrite step_cache. cbn [handler].
    rewrite bool_decide_eq_true_2 by exact Hd. cbn. rewrite Hid, or_else_empty.
    apply lookup_insert_eq.
  - intros i stock Hsel Hshow Hnth k Hk. rewrite step_cache. cbn [handler].
    rewrite Hsel, Hshow, Hnth. destruct (cache_select stock s) as [A _]. rewrite A.
    cbn. fold k. apply truthy_true in Hk. rewrite Hk. apply lookup_insert_eq.
  - intros e k. apply step_keeps_entries.
Qed.

Lemma cache_hit_witness :
  let s := run Examples.earlier_session (initial ∅) in
  let s' := step s (Open (Some Examples.tcs_tip)) in
  stockDetailsCache s !! "s1" = Some Examples.tcs /\
  calls s' = calls s /\ detail_calls s' = [] /\
  selectedStockDetails s' = Some Examples.tcs.
Proof.
  cbv zeta. split; [vm_compute; reflexivity|].
  destruct (cache_is_consulted_first_and_never_shrinks Examples.earlier_session)
    as (Hhit & _).
  destruct (Hhit Examples.tcs_tip "s1" Examples.tcs) as [A B];
    [left; vm_compute; reflexivity | reflexivity | vm_compute; reflexivity |].
  split; [exact A|]. split; [vm_compute; reflexivity | exact B].
Defined.


Lemma valid_has_stockId (v : TipFormValues) :
  tipSchema v = [] -> JS.truthy_opt (stockId v) = true.
Proof.
  unfold tipSchema. intros H.
  apply app_eq_nil in H as [_ H]. apply app_eq_nil in H as [H _].
  unfold z_string in H. destruct (stockId v) as [x|]; [|discriminate].
  destruct x; [discriminate | reflexivity].
Qed.

Lemma submit_stockId_truthy (data : TipFormValues) (s : state) :
  JS.truthy_opt (stockId data) = true -> JS.truthy (submit_stockId data s) = true.
Proof.
  unfold submit_stockId, JS.truthy_opt, JS.or_str, JS.or_else.
  destruct (stockId data) as [x|]; [|discriminate]. intros H. rewrite H.
  destruct (selectedStockDetails s) as [stock|]; [|exact H].
  destruct (JS.truthy (Stock._id stock)) eqn:E; [exact E | exact H].
Qed.

Lemma onValidSubmit_answered (data : TipFormValues) (r : outcome unit) (s : state) :
  JS.truthy_opt (stockId data) = true ->
  exists c,
    onValidSubmit data r s =
    match r with
    | resolved _ =>
        submit_succeeded
          (match c with
           | updateTip _ _ => "Tip updated successfully"
           | _ => "Tip created successfully"
           end) (add_call c s)
    | rejected e => submit_failed e (add_call c s)
    end.
Proof.
  intros H. unfold onValidSubmit. rewrite H.
  rewrite (submit_stockId_truthy data s H). cbn [negb].
  assert (E : forall (X Y : state),
            match selectedStockDetails s with
            | Some _ => X | None => if true then X else Y end = X)
    by (intros; destruct (selectedStockDetails s); reflexivity).
  destruct (selectedStockDetails s) eqn:Hsel;
    (destruct (match initialData s with
               | Some d => if JS.truthy_opt (Tip._id d) then Tip._id d else None
               | None => None
               end) as [i|];
     [exists (updateTip i (tipData (submit_stockId data s) data s))
     |exists (onSubmit (tipData (submit_stockId data s) data s))];
     destruct r; reflexivity).
Qed.

(** Claim C7, as amended. For a submission of valid values: when the save
    returns, a success toast is added, the dialog is closed, the form is
    back at its default values, no stock is selected, the search text is
    empty and the result list is hidden, the list itself being left as it
    was; when the save fails, an error toast with the error's message is
    added and the dialog stays as it is: open, with the values entered,
    the selected stock, the search text and the results. *)
Theorem submit_success_resets_and_failure_keeps_the_form
    (s : state) (Hvalid : tipSchema (values s) = []) :
  (forall u : unit,
     let s' := step s (Submit (resolved u)) in
     (exists description,
        toasts s' = (toasts s ++ [{| toast_title := "Success";
                                     toast_description := description;
                                     destructive := false |}])%list) /\
     open s' = false /\
     values s' = defaultValues s /\
     selectedStockDetails s' = None /\
     searchTerm s' = "" /\
     showResults s' = false /\
     searchResults s' = searchResults s) /\
  (forall e : js_error,
     let s' := step s (Submit (rejected e)) in
     toasts s' = (toasts s ++ [{| toast_title := "Error";
                                  toast_description :=
                                    error_message e "Failed to save tip";
                                  destructive := true |}])%list /\
     open s' = open s /\
     values s' = values s /\
     defaultValues s' = defaultValues s /\
     selectedStockDetails s' = selectedStockDetails s /\
     searchTerm s' = searchTerm s /\
     showResults s' = showResults s /\
     searchResults s' = searchResults s).
Proof.
  pose proof (valid_has_stockId _ Hvalid) as Hid.
  split.
  - intros u s'.
    destruct (onValidSubmit_answered (values s) (resolved u) (set_errors [] s) Hid)
      as [c Hc].
    assert (Hh : handler (Submit (resolved u)) s =
                 submit_succeeded
                   (match c with
                    | updateTip _ _ => "Tip updated successfully"
                    | _ => "Tip created successfully"
                    end) (add_call c (set_errors [] s))).
    { cbn [handler]. unfold handleSubmit. rewrite Hvalid. exact Hc. }
    assert (Hclosed : open (handler (Submit (resolved u)) s) = false)
      by (rewrite Hh; reflexivity).
    assert (Hs' : s' = commit s (handler (Submit (resolved u)) s)).
    { subst s'. apply step_same_dialog. right. exact Hclosed. }
    assert (Hm : masked s' = masked (handler (Submit (resolved u)) s)).
    { rewrite Hs'. apply commit_masked. right. exact Hclosed. }
    assert (Hv : values s' = values (handler (Submit (resolved u)) s)).
    { rewrite Hs'. apply commit_values_no_stock; [right; exact Hclosed|].
      rewrite Hh. reflexivity. }
    destruct (masked_fields _ _ Hm) as (A & _ & _ & B & _ & C & D & E & F & _).
    rewrite Hh in A, B, C, D, E, F, Hv.
    split; [eexists; exact A|]. repeat split; assumption.
  - intros e s'.
    destruct (onValidSubmit_answered (values s) (rejected e) (set_errors [] s) Hid)
      as [c Hc].
    assert (Hh : handler (Submit (rejected e)) s =
                 submit_failed e (add_call c (set_errors [] s))).
    { cbn [handler]. unfold handleSubmit. rewrite Hvalid. exact Hc. }
    assert (Hs' : s' = handler (Submit (rejected e)) s).
    { subst s'. unfold step, after. apply settle_quiet. rewrite Hh. reflexivity. }
    rewrite Hs', Hh. repeat split; reflexivity.
Qed.

Lemma submit_witness :
  let s := Examples.form_filled in
  tipSchema (values s) = [] /\
  open (step s (Submit (resolved tt))) = false /\
  values (step s (Submit (resolved tt))) = empty_values /\
  open (step s (Submit (rejected (Error "Network down")))) = true /\
  targetPrice (values (step s (Submit (rejected (Error "Network down"))))) = Some "180".
Proof.
  cbv zeta.
  assert (Hvalid : tipSchema (values Examples.form_filled) = [])
    by (vm_compute; reflexivity).
  destruct (submit_success_resets_and_failure_keeps_the_form Examples.form_filled Hvalid)
    as [Hok Hfail].
  destruct (Hok tt) as (_ & A & B & _).
  destruct (Hfail (Error "Network down")) as (_ & C & D & _).
  split; [exact Hvalid|]. split; [exact A|].
  split; [rewrite B; vm_compute; reflexivity|].
  split; [rewrite C; vm_compute; reflexivity|].
  rewrite D; vm_compute; reflexivity.
Defined.

(** Claim C7 as stated fails: the answer to an older search arrived after
    a stock was picked, the form was filled in and the save returned; the
    dialog is closed with a success toast, and the result list still
    holds that answer, also a second later. *)
Lemma submit_leaves_result_list :
  let s := Examples.form_filled in
  let s' := step s (Submit (resolved tt)) in
  tipSchema (values s) = [] /\ searchResults s = [Examples.infy] /\
  map toast_title (toasts s') = ["Success"] /\ open s' = false /\
  showResults s' = false /\
  searchResults s' = [Examples.infy] /\
  searchResults (step s' (Elapse 1000)) = [Examples.infy].
Proof. cbv zeta. repeat split; vm_compute; reflexivity. Defined.

End DialogFacts.
